(** * Netdev adaptation of the sx127x LoRa radio driver

    A shallow embedding of [drivers/sx127x/sx127x_netdev.c]: the netdev
    entry points [_send] and [_recv], the validated options of [_get] and
    [_set], and the helpers [_get_tx_len] and [_get_state], written as
    state-passing functions over the device descriptor and the radio chip
    behind its register port.  Every call the driver makes to a collaborator
    (register port, timers, event callback, console) is recorded, in order, in
    the list of calls of the outcome. *)

From Stdlib Require Import ZArith List Bool Lia String.
Import ListNotations.
Local Open Scope Z_scope.

(** ** Integer types of the C source *)

(** Conversion to [uint8_t]. *)
Definition u8 (z : Z) : Z := z mod 256.

(** Conversion to [int8_t] (two's complement). *)
Definition i8 (z : Z) : Z := (z + 128) mod 256 - 128.

(** Conversion to [int16_t]. *)
Definition i16 (z : Z) : Z := (z + 32768) mod 65536 - 32768.

(** The values of [errno.h] the driver returns (negated), and [EBUSY], which
    it never returns.  POSIX gives them distinct positive values.  [ENODEV]
    answers a NULL device pointer in [_get] and [_set]. *)
Inductive errno : Type :=
  | ENODEV | ENOTSUP | EINVAL | ENOBUFS | EBADMSG | EBUSY.

(** An [int] result: a non-negative value, or [-e] for an errno [e]. *)
Inductive retval : Type :=
  | Ok (n : Z)
  | Err (e : errno).

(** ** The device descriptor *)

Record sx127x_lora_settings_t : Type := {
  bandwidth : Z;
  spreading_factor : Z;
  coding_rate : Z;
  flags : Z;
  tx_timeout : Z
}.

Record sx127x_radio_settings_t : Type := {
  channel : Z;
  state : Z;
  modem : Z;
  lora : sx127x_lora_settings_t;
  window_timeout : Z
}.

(** An [xtimer_t] is armed with a duration or idle. *)
Record sx127x_internal_t : Type := {
  tx_timeout_timer : option Z;
  rx_timeout_timer : option Z
}.

Record sx127x_t : Type := {
  settings : sx127x_radio_settings_t;
  _internal : sx127x_internal_t;
  irq : Z
}.

Record netdev_sx127x_lora_packet_info_t : Type := {
  rssi : Z;
  lqi : Z;
  snr : Z;
  time_on_air : Z
}.

(** ** Names declared in headers that are not part of this file

    [sx127x_registers.h], [sx127x.h], [sx127x_internal.h] and
    [sx127x_netdev.h] give the numeric constants and the time-on-air estimate
    used below.  They are taken as parameters; the two facts kept with them
    are the ones the C compiler enforces on the [switch] statements of the
    source (case labels of one [switch] are pairwise distinct). *)
Class Sx127xHeaders : Type := {
  (* sx127x.h: radio states, modems, flags *)
  SX127X_RF_IDLE : Z;
  SX127X_RF_TX_RUNNING : Z;
  SX127X_MODEM_FSK : Z;
  SX127X_MODEM_LORA : Z;
  SX127X_RX_CONTINUOUS_FLAG : Z;
  SX127X_RADIO_WAKEUP_TIME : Z;
  SX127X_BW_125_KHZ : Z;
  SX127X_BW_500_KHZ : Z;
  SX127X_SF6 : Z;
  SX127X_SF12 : Z;
  SX127X_CR_4_5 : Z;
  SX127X_CR_4_8 : Z;
  (* sx127x_registers.h: operating modes *)
  SX127X_RF_OPMODE_SLEEP : Z;
  SX127X_RF_OPMODE_STANDBY : Z;
  SX127X_RF_OPMODE_TRANSMITTER : Z;
  SX127X_RF_OPMODE_RECEIVER : Z;
  SX127X_RF_LORA_OPMODE_RECEIVER_SINGLE : Z;
  (* sx127x_registers.h: interrupt flags *)
  SX127X_RF_LORA_IRQFLAGS_RXTIMEOUT : Z;
  SX127X_RF_LORA_IRQFLAGS_RXDONE : Z;
  SX127X_RF_LORA_IRQFLAGS_PAYLOADCRCERROR : Z;
  SX127X_RF_LORA_IRQFLAGS_PAYLOADCRCERROR_MASK : Z;
  SX127X_RF_LORA_IRQFLAGS_VALIDHEADER : Z;
  SX127X_RF_LORA_IRQFLAGS_CADDONE : Z;
  SX127X_RF_LORA_IRQFLAGS_FHSSCHANGEDCHANNEL : Z;
  SX127X_RF_LORA_IRQFLAGS_CADDETECTED : Z;
  (* sx127x_registers.h: DIO mapping *)
  SX127X_RF_LORA_DIOMAPPING1_DIO0_MASK : Z;
  SX127X_RF_LORA_DIOMAPPING1_DIO0_01 : Z;
  (* sx127x_internal.h: RSSI offsets; MODULE_SX1272 is the build switch *)
  MODULE_SX1272 : bool;
  SX127X_RSSI_OFFSET : Z;
  SX127X_RSSI_OFFSET_HF : Z;
  SX127X_RSSI_OFFSET_LF : Z;
  SX127X_RF_MID_BAND_THRESH : Z;
  (* net/netopt.h *)
  sizeof_netopt_state_t : Z;
  (* sx127x_netdev.h: conversion to the type of the [rssi] field of the
     packet information *)
  rssi_field : Z -> Z;
  (* sx127x.h: sx127x_get_time_on_air, from the radio settings and the
     packet length *)
  time_on_air_estimate : sx127x_radio_settings_t -> Z -> Z;
  (* distinct case labels *)
  modem_labels_distinct : SX127X_MODEM_FSK <> SX127X_MODEM_LORA;
  opmode_labels_distinct :
    NoDup [SX127X_RF_OPMODE_SLEEP; SX127X_RF_OPMODE_STANDBY;
           SX127X_RF_OPMODE_TRANSMITTER; SX127X_RF_OPMODE_RECEIVER;
           SX127X_RF_LORA_OPMODE_RECEIVER_SINGLE]
}.

(** ** Chip registers named by the driver *)

(** The registers the source names, [REG_OPMODE] and [REG_LR_PAYLOADLENGTH]
    behind [sx127x_get_op_mode]/[sx127x_set_op_mode] and
    [sx127x_set_payload_length], and the three modulation fields the validated
    setters write through to. *)
Inductive reg : Type :=
  | SX127X_REG_OPMODE
  | SX127X_REG_LR_FIFOADDRPTR
  | SX127X_REG_LR_FIFOTXBASEADDR
  | SX127X_REG_LR_FIFORXCURRENTADDR
  | SX127X_REG_LR_IRQFLAGSMASK
  | SX127X_REG_LR_IRQFLAGS
  | SX127X_REG_LR_RXNBBYTES
  | SX127X_REG_LR_PKTSNRVALUE
  | SX127X_REG_LR_PKTRSSIVALUE
  | SX127X_REG_LR_PAYLOADLENGTH
  | SX127X_REG_DIOMAPPING1
  | SX127X_REG_LR_BANDWIDTH
  | SX127X_REG_LR_SPREADING_FACTOR
  | SX127X_REG_LR_CODING_RATE.

Definition reg_eqb (a b : reg) : bool :=
  match a, b with
  | SX127X_REG_OPMODE, SX127X_REG_OPMODE
  | SX127X_REG_LR_FIFOADDRPTR, SX127X_REG_LR_FIFOADDRPTR
  | SX127X_REG_LR_FIFOTXBASEADDR, SX127X_REG_LR_FIFOTXBASEADDR
  | SX127X_REG_LR_FIFORXCURRENTADDR, SX127X_REG_LR_FIFORXCURRENTADDR
  | SX127X_REG_LR_IRQFLAGSMASK, SX127X_REG_LR_IRQFLAGSMASK
  | SX127X_REG_LR_IRQFLAGS, SX127X_REG_LR_IRQFLAGS
  | SX127X_REG_LR_RXNBBYTES, SX127X_REG_LR_RXNBBYTES
  | SX127X_REG_LR_PKTSNRVALUE, SX127X_REG_LR_PKTSNRVALUE
  | SX127X_REG_LR_PKTRSSIVALUE, SX127X_REG_LR_PKTRSSIVALUE
  | SX127X_REG_LR_PAYLOADLENGTH, SX127X_REG_LR_PAYLOADLENGTH
  | SX127X_REG_DIOMAPPING1, SX127X_REG_DIOMAPPING1
  | SX127X_REG_LR_BANDWIDTH, SX127X_REG_LR_BANDWIDTH
  | SX127X_REG_LR_SPREADING_FACTOR, SX127X_REG_LR_SPREADING_FACTOR
  | SX127X_REG_LR_CODING_RATE, SX127X_REG_LR_CODING_RATE => true
  | _, _ => false
  end.

(** The register port, an external collaborator of the driver: synchronous
    single-register access and burst access to the FIFO. *)
Class RegisterPort (chip : Type) : Type := {
  port_read : chip -> reg -> Z;
  port_write : chip -> reg -> Z -> chip;
  port_write_burst : chip -> list Z -> chip;
  port_read_burst : chip -> Z -> list Z * chip
}.

Inductive netdev_event_t : Type :=
  | NETDEV_EVENT_CRC_ERROR.

Inductive netopt_state_t : Type :=
  | NETOPT_STATE_SLEEP
  | NETOPT_STATE_STANDBY
  | NETOPT_STATE_TX
  | NETOPT_STATE_IDLE.

(** The options of [_get] and [_set] covered here; [NETOPT_OTHER] stands for
    an option neither [switch] names, which takes the [default] branch. *)
Inductive netopt_t : Type :=
  | NETOPT_BANDWIDTH
  | NETOPT_SPREADING_FACTOR
  | NETOPT_CODING_RATE
  | NETOPT_OTHER.

Inductive timer_slot : Type :=
  | TxTimeout
  | RxTimeout.

(** A call out of the driver, as it appears in the source. *)
Inductive call : Type :=
  | RegWrite (r : reg) (v : Z)
  | RegRead (r : reg)
  | WriteFifo (bytes : list Z)
  | ReadFifo (size : Z)
  | XtimerSet (t : timer_slot) (us : Z)
  | XtimerRemove (t : timer_slot)
  | XtimerUsleep (us : Z)
  | EventCallback (e : netdev_event_t)
  | Puts (s : string).

(** One buffer of the scatter/gather vector handed to [_send]: the
    [iov_len] bytes found at [iov_base]. *)
Record iovec : Type := { iov_base : list Z }.

Definition iov_len (v : iovec) : Z := Z.of_nat (List.length (iov_base v)).

(** ** Machine state and the monad of driver code *)

Section Driver.

Context {hdr : Sx127xHeaders} {chip : Type} {port : RegisterPort chip}.

(** The device descriptor in memory and the radio chip behind the port. *)
Record machine : Type := Machine { dev : sx127x_t; hw : chip }.

(** What running a piece of driver code gives: its value, the machine
    afterwards, and the calls it made, oldest first. *)
Record outcome (A : Type) : Type :=
  Outcome { value : A; after : machine; calls : list call }.

Arguments Outcome {A} _ _ _.
Arguments value {A} _.
Arguments after {A} _.
Arguments calls {A} _.

Definition M (A : Type) : Type := machine -> outcome A.

Definition ret {A : Type} (a : A) : M A := fun m => Outcome a m [].

Definition bind {A B : Type} (c : M A) (k : A -> M B) : M B :=
  fun m =>
    let (a, m1, calls1) := c m in
    let (b, m2, calls2) := k a m1 in
    Outcome b m2 (calls1 ++ calls2).

Notation "x <- c ;; k" := (bind c (fun x => k))
  (at level 61, c at next level, right associativity).
Notation "c ;; k" := (bind c (fun _ => k))
  (at level 61, right associativity).

(** Reading and updating the descriptor (plain memory accesses: no call). *)
Definition gets {A : Type} (f : sx127x_t -> A) : M A :=
  fun m => Outcome (f (dev m)) m [].

Definition modify (f : sx127x_t -> sx127x_t) : M unit :=
  fun m => Outcome tt (Machine (f (dev m)) (hw m)) [].

Definition with_settings (f : sx127x_radio_settings_t -> sx127x_radio_settings_t)
    (d : sx127x_t) : sx127x_t :=
  {| settings := f (settings d); _internal := _internal d; irq := irq d |}.

Definition with_lora (f : sx127x_lora_settings_t -> sx127x_lora_settings_t)
    (s : sx127x_radio_settings_t) : sx127x_radio_settings_t :=
  {| channel := channel s; state := state s; modem := modem s;
     lora := f (lora s); window_timeout := window_timeout s |}.

Definition with_state (st : Z) (s : sx127x_radio_settings_t)
    : sx127x_radio_settings_t :=
  {| channel := channel s; state := st; modem := modem s;
     lora := lora s; window_timeout := window_timeout s |}.

Definition with_timer (t : timer_slot) (v : option Z) (d : sx127x_t) : sx127x_t :=
  {| settings := settings d;
     _internal :=
       match t with
       | TxTimeout => {| tx_timeout_timer := v;
                         rx_timeout_timer := rx_timeout_timer (_internal d) |}
       | RxTimeout => {| tx_timeout_timer := tx_timeout_timer (_internal d);
                         rx_timeout_timer := v |}
       end;
     irq := irq d |}.

(** ** Collaborators

    The register port moves bytes: what is written is converted to
    [uint8_t], and so is what is read. *)
Definition sx127x_reg_write (r : reg) (v : Z) : M unit :=
  fun m => Outcome tt (Machine (dev m) (port_write (hw m) r (u8 v)))
                   [RegWrite r (u8 v)].

Definition sx127x_reg_read (r : reg) : M Z :=
  fun m => Outcome (u8 (port_read (hw m) r)) m [RegRead r].

Definition sx127x_write_fifo (bytes : list Z) : M unit :=
  fun m => Outcome tt (Machine (dev m) (port_write_burst (hw m) bytes))
                   [WriteFifo bytes].

Definition sx127x_read_fifo (size : Z) : M (list Z) :=
  fun m => let r := port_read_burst (hw m) size in
           Outcome (fst r) (Machine (dev m) (snd r)) [ReadFifo size].

(** The timers live in the descriptor; arming replaces a pending deadline and
    removing an idle timer changes nothing. *)
Definition xtimer_set (t : timer_slot) (us : Z) : M unit :=
  fun m => Outcome tt (Machine (with_timer t (Some us) (dev m)) (hw m))
                   [XtimerSet t us].

Definition xtimer_remove (t : timer_slot) : M unit :=
  fun m => Outcome tt (Machine (with_timer t None (dev m)) (hw m))
                   [XtimerRemove t].

Definition xtimer_usleep (us : Z) : M unit :=
  fun m => Outcome tt m [XtimerUsleep us].

Definition event_callback (e : netdev_event_t) : M unit :=
  fun m => Outcome tt m [EventCallback e].

Definition puts (s : string) : M unit :=
  fun m => Outcome tt m [Puts s].

(** Modelled from the spec: [sx127x_get_state] is missing from the sources;
    the radio state is the [state] field of the settings, the sole record of
    what the radio is doing. *)
Definition sx127x_get_state : M Z := gets (fun d => state (settings d)).

(** Modelled from the spec: [sx127x_set_state] is missing from the sources;
    a transition replaces the [state] field of the settings. *)
Definition sx127x_set_state (st : Z) : M unit :=
  modify (with_settings (with_state st)).

(** Modelled from the spec: [sx127x_get_op_mode] is missing from the
    sources; the raw operating mode is read from the chip's operating-mode
    register. *)
Definition sx127x_get_op_mode : M Z := sx127x_reg_read SX127X_REG_OPMODE.

(** Modelled from the spec: [sx127x_set_op_mode] is missing from the
    sources; the chip is commanded into a mode through the same register. *)
Definition sx127x_set_op_mode (op_mode : Z) : M unit :=
  sx127x_reg_write SX127X_REG_OPMODE op_mode.

(** Modelled from the spec: [sx127x_set_standby] is missing from the
    sources; it forces the chip to standby. *)
Definition sx127x_set_standby : M unit :=
  sx127x_set_op_mode SX127X_RF_OPMODE_STANDBY.

(** Modelled from the spec: [sx127x_set_payload_length] is missing from the
    sources; it programs the payload-length field of the chip. *)
Definition sx127x_set_payload_length (len : Z) : M unit :=
  sx127x_reg_write SX127X_REG_LR_PAYLOADLENGTH len.

(** Modelled from the spec: [sx127x_set_bandwidth] is missing from the
    sources; a setter stores the value in the settings and writes it through
    to the chip. *)
Definition sx127x_set_bandwidth (bw : Z) : M unit :=
  modify (with_settings (with_lora (fun l =>
    {| bandwidth := bw; spreading_factor := spreading_factor l;
       coding_rate := coding_rate l; flags := flags l;
       tx_timeout := tx_timeout l |}))) ;;
  sx127x_reg_write SX127X_REG_LR_BANDWIDTH bw.

(** Modelled from the spec: [sx127x_set_spreading_factor] is missing from
    the sources; it stores the value and writes it through, as above. *)
Definition sx127x_set_spreading_factor (sf : Z) : M unit :=
  modify (with_settings (with_lora (fun l =>
    {| bandwidth := bandwidth l; spreading_factor := sf;
       coding_rate := coding_rate l; flags := flags l;
       tx_timeout := tx_timeout l |}))) ;;
  sx127x_reg_write SX127X_REG_LR_SPREADING_FACTOR sf.

(** Modelled from the spec: [sx127x_set_coding_rate] is missing from the
    sources; it stores the value and writes it through, as above. *)
Definition sx127x_set_coding_rate (cr : Z) : M unit :=
  modify (with_settings (with_lora (fun l =>
    {| bandwidth := bandwidth l; spreading_factor := spreading_factor l;
       coding_rate := cr; flags := flags l;
       tx_timeout := tx_timeout l |}))) ;;
  sx127x_reg_write SX127X_REG_LR_CODING_RATE cr.

(** Modelled from the spec: [sx127x_get_bandwidth] is missing from the
    sources; a getter reads the stored setting back. *)
Definition sx127x_get_bandwidth : M Z :=
  gets (fun d => bandwidth (lora (settings d))).

(** Modelled from the spec: [sx127x_get_spreading_factor] is missing from
    the sources; it reads the stored setting back. *)
Definition sx127x_get_spreading_factor : M Z :=
  gets (fun d => spreading_factor (lora (settings d))).

(** Modelled from the spec: [sx127x_get_coding_rate] is missing from the
    sources; it reads the stored setting back. *)
Definition sx127x_get_coding_rate : M Z :=
  gets (fun d => coding_rate (lora (settings d))).

(** [sx127x_get_time_on_air] is missing from the sources; the estimate is
    the parameter [time_on_air_estimate], a function of the settings and the length. *)
Definition sx127x_get_time_on_air (pkt_len : Z) : M Z :=
  gets (fun d => time_on_air_estimate (settings d) pkt_len).

(** ** The driver: sx127x_netdev.c *)

(** [_get_tx_len]: the [uint8_t] accumulator wraps at every addition. *)
Definition _get_tx_len (vector : list iovec) : Z :=
  fold_left (fun len v => u8 (len + iov_len v)) vector 0.

(** The loop of [_send] over the vector: one FIFO write per buffer. *)
Fixpoint write_payload (vector : list iovec) : M unit :=
  match vector with
  | [] => ret tt
  | v :: rest => sx127x_write_fifo (iov_base v) ;; write_payload rest
  end.

(** The mask [_send] writes to the interrupt-mask register: every source
    but transmit-done. *)
Definition tx_irq_mask : Z :=
  Z.lor SX127X_RF_LORA_IRQFLAGS_RXTIMEOUT
 (Z.lor SX127X_RF_LORA_IRQFLAGS_RXDONE
 (Z.lor SX127X_RF_LORA_IRQFLAGS_PAYLOADCRCERROR
 (Z.lor SX127X_RF_LORA_IRQFLAGS_VALIDHEADER
 (Z.lor SX127X_RF_LORA_IRQFLAGS_CADDONE
 (Z.lor SX127X_RF_LORA_IRQFLAGS_FHSSCHANGEDCHANNEL
        SX127X_RF_LORA_IRQFLAGS_CADDETECTED))))).

Definition _send (vector : list iovec) : M retval :=
  st <- sx127x_get_state ;;
  if st =? SX127X_RF_TX_RUNNING then
    ret (Err ENOTSUP)
  else
    let size := _get_tx_len vector in
    md <- gets (fun d => modem (settings d)) ;;
    (if md =? SX127X_MODEM_FSK then
       (* todo *)
       ret tt
     else if md =? SX127X_MODEM_LORA then
       (* Initializes the payload size *)
       sx127x_set_payload_length size ;;
       (* Full buffer used for Tx *)
       sx127x_reg_write SX127X_REG_LR_FIFOTXBASEADDR 0x00 ;;
       sx127x_reg_write SX127X_REG_LR_FIFOADDRPTR 0x00 ;;
       (* FIFO operations can not take place in Sleep mode *)
       op_mode <- sx127x_get_op_mode ;;
       (if op_mode =? SX127X_RF_OPMODE_SLEEP then
          sx127x_set_standby ;;
          xtimer_usleep SX127X_RADIO_WAKEUP_TIME
        else ret tt) ;;
       (* Write payload buffer *)
       write_payload vector
     else
       puts "sx127x_netdev, Unsupported modem") ;;
    (* Enable TXDONE interrupt *)
    sx127x_reg_write SX127X_REG_LR_IRQFLAGSMASK tx_irq_mask ;;
    (* Set TXDONE interrupt to the DIO0 line *)
    dio <- sx127x_reg_read SX127X_REG_DIOMAPPING1 ;;
    sx127x_reg_write SX127X_REG_DIOMAPPING1
      (Z.lor (Z.land dio SX127X_RF_LORA_DIOMAPPING1_DIO0_MASK)
             SX127X_RF_LORA_DIOMAPPING1_DIO0_01) ;;
    (* Start TX timeout timer *)
    timeout <- gets (fun d => tx_timeout (lora (settings d))) ;;
    xtimer_set TxTimeout timeout ;;
    (* Put chip into transfer mode *)
    sx127x_set_state SX127X_RF_TX_RUNNING ;;
    sx127x_set_op_mode SX127X_RF_OPMODE_TRANSMITTER ;;
    ret (Ok 0).

(** The SNR stored by [_recv] from the packet-SNR register.  In
    [-1 * ((~snr_value + 1) & 0xFF) >> 2] the product binds tighter than the
    shift, and the shift of the negative [int] is arithmetic.  The [snr]
    field is a signed byte; the test [snr < 0] that follows in the source
    reads it back. *)
Definition snr_of_register (snr_value : Z) : Z :=
  if negb (Z.land snr_value 0x80 =? 0) then
    (* The SNR is negative: invert and divide by 4 *)
    i8 (Z.shiftr (-1 * Z.land (Z.lnot snr_value + 1) 0xFF) 2)
  else
    (* Divide by 4 *)
    i8 (Z.shiftr (Z.land snr_value 0xFF) 2).

(** The RSSI stored by [_recv]; [rssi_reg] is the packet-RSSI register,
    held in an [int16_t], [snr_v] the SNR field just stored. *)
Definition rssi_of_register (chan snr_v rssi_reg : Z) : Z :=
  let rssi_v := i16 rssi_reg in
  if snr_v <? 0 then
    if MODULE_SX1272 then
      rssi_field (SX127X_RSSI_OFFSET + rssi_v + Z.shiftr rssi_v 4 + snr_v)
    else if chan >? SX127X_RF_MID_BAND_THRESH then
      rssi_field (SX127X_RSSI_OFFSET_HF + rssi_v + Z.shiftr rssi_v 4 + snr_v)
    else
      rssi_field (SX127X_RSSI_OFFSET_LF + rssi_v + Z.shiftr rssi_v 4 + snr_v)
  else
    if MODULE_SX1272 then
      rssi_field (SX127X_RSSI_OFFSET + rssi_v + Z.shiftr rssi_v 4)
    else if chan >? SX127X_RF_MID_BAND_THRESH then
      rssi_field (SX127X_RSSI_OFFSET_HF + rssi_v + Z.shiftr rssi_v 4)
    else
      rssi_field (SX127X_RSSI_OFFSET_LF + rssi_v + Z.shiftr rssi_v 4).

(** What [_recv] hands back: the [int] it returns, the caller's buffer and
    the caller's packet information as the call leaves them ([None] for a
    NULL pointer). *)
Record recv_result : Type := {
  recv_ret : retval;
  recv_buf : option (list Z);
  recv_info : option netdev_sx127x_lora_packet_info_t
}.

(** [!(dev->settings.lora.flags & SX127X_RX_CONTINUOUS_FLAG)] *)
Definition rx_single_shot (d : sx127x_t) : bool :=
  Z.land (flags (lora (settings d))) SX127X_RX_CONTINUOUS_FLAG =? 0.

Definition _recv (buf : option (list Z)) (len : Z)
    (info : option netdev_sx127x_lora_packet_info_t) : M recv_result :=
  md <- gets (fun d => modem (settings d)) ;;
  if md =? SX127X_MODEM_FSK then
    (* todo *)
    ret {| recv_ret := Ok 0; recv_buf := buf; recv_info := info |}
  else if md =? SX127X_MODEM_LORA then
    (* Clear IRQ *)
    sx127x_reg_write SX127X_REG_LR_IRQFLAGS SX127X_RF_LORA_IRQFLAGS_RXDONE ;;
    irq_flags <- sx127x_reg_read SX127X_REG_LR_IRQFLAGS ;;
    if Z.land irq_flags SX127X_RF_LORA_IRQFLAGS_PAYLOADCRCERROR_MASK
         =? SX127X_RF_LORA_IRQFLAGS_PAYLOADCRCERROR then
      (* Clear IRQ *)
      sx127x_reg_write SX127X_REG_LR_IRQFLAGS
                       SX127X_RF_LORA_IRQFLAGS_PAYLOADCRCERROR ;;
      single <- gets rx_single_shot ;;
      (if single then sx127x_set_state SX127X_RF_IDLE else ret tt) ;;
      xtimer_remove RxTimeout ;;
      event_callback NETDEV_EVENT_CRC_ERROR ;;
      ret {| recv_ret := Err EBADMSG; recv_buf := buf; recv_info := info |}
    else
      info' <-
        match info with
        | Some _ =>
            (* there is no LQI for LoRa *)
            snr_value <- sx127x_reg_read SX127X_REG_LR_PKTSNRVALUE ;;
            let snr_v := snr_of_register snr_value in
            rssi_reg <- sx127x_reg_read SX127X_REG_LR_PKTRSSIVALUE ;;
            chan <- gets (fun d => channel (settings d)) ;;
            toa <- sx127x_get_time_on_air len ;;
            ret (Some {| rssi := rssi_of_register chan snr_v rssi_reg;
                         lqi := 0;
                         snr := snr_v;
                         time_on_air := toa |})
        | None => ret None
        end ;;
      size <- sx127x_reg_read SX127X_REG_LR_RXNBBYTES ;;
      match buf with
      | None =>
          ret {| recv_ret := Ok size; recv_buf := None; recv_info := info' |}
      | Some b =>
          if size >? len then
            ret {| recv_ret := Err ENOBUFS; recv_buf := buf;
                   recv_info := info' |}
          else
            single <- gets rx_single_shot ;;
            (if single then sx127x_set_state SX127X_RF_IDLE else ret tt) ;;
            xtimer_remove RxTimeout ;;
            (* Read the last packet from FIFO *)
            last_rx_addr <- sx127x_reg_read SX127X_REG_LR_FIFORXCURRENTADDR ;;
            sx127x_reg_write SX127X_REG_LR_FIFOADDRPTR last_rx_addr ;;
            data <- sx127x_read_fifo size ;;
            ret {| recv_ret := Ok size;
                   recv_buf := Some (firstn (Z.to_nat size) data
                                     ++ skipn (Z.to_nat size) b);
                   recv_info := info' |}
      end
  else
    ret {| recv_ret := Ok 0; recv_buf := buf; recv_info := info |}.

(** [_get] for the three validated options: the [int] returned and the
    [uint8_t] stored through [val], if any.  The device pointer is the
    machine's descriptor, never NULL, and the call satisfies the [assert] on
    [max_len]. *)
Definition _get (opt : netopt_t) : M (retval * option Z) :=
  match opt with
  | NETOPT_BANDWIDTH =>
      v <- sx127x_get_bandwidth ;; ret (Ok 1, Some (u8 v))
  | NETOPT_SPREADING_FACTOR =>
      v <- sx127x_get_spreading_factor ;; ret (Ok 1, Some (u8 v))
  | NETOPT_CODING_RATE =>
      v <- sx127x_get_coding_rate ;; ret (Ok 1, Some (u8 v))
  | NETOPT_OTHER => ret (Ok 0, None)
  end.

(** [_set] for the three validated options; [val] is the byte found
    through the pointer.  [res] starts as [-ENOTSUP]; a rejected value leaves
    the [switch] with [res = -EINVAL].  As for [_get], the device pointer is
    never NULL and the call satisfies the [assert] on [len]. *)
Definition _set (opt : netopt_t) (val : Z) : M retval :=
  let res := Err ENOTSUP in
  match opt with
  | NETOPT_BANDWIDTH =>
      let bw := u8 val in
      if (bw <? SX127X_BW_125_KHZ) || (bw >? SX127X_BW_500_KHZ) then
        ret (Err EINVAL)
      else
        sx127x_set_bandwidth bw ;; ret (Ok 1)
  | NETOPT_SPREADING_FACTOR =>
      let sf := u8 val in
      if (sf <? SX127X_SF6) || (sf >? SX127X_SF12) then
        ret (Err EINVAL)
      else
        sx127x_set_spreading_factor sf ;; ret (Ok 1)
  | NETOPT_CODING_RATE =>
      let cr := u8 val in
      if (cr <? SX127X_CR_4_5) || (cr >? SX127X_CR_4_8) then
        ret (Err EINVAL)
      else
        sx127x_set_coding_rate cr ;; ret (Ok 1)
  | NETOPT_OTHER => ret res
  end.

(** [_get_state]: the [int] returned and the state copied through [val];
    in the [default] branch the local [state] is copied uninitialised, which
    is [None] here. *)
Definition _get_state : M (retval * option netopt_state_t) :=
  op_mode <- sx127x_get_op_mode ;;
  let st :=
    if op_mode =? SX127X_RF_OPMODE_SLEEP then Some NETOPT_STATE_SLEEP
    else if op_mode =? SX127X_RF_OPMODE_STANDBY then Some NETOPT_STATE_STANDBY
    else if op_mode =? SX127X_RF_OPMODE_TRANSMITTER then Some NETOPT_STATE_TX
    else if (op_mode =? SX127X_RF_OPMODE_RECEIVER)
            || (op_mode =? SX127X_RF_LORA_OPMODE_RECEIVER_SINGLE)
         then Some NETOPT_STATE_IDLE
    else None in
  ret (Ok sizeof_netopt_state_t, st).

(** *** Interrupt dispatch and state commands

    The interrupt handlers and the mode setters [_isr] and [_set_state] call
    are missing from the sources, and so are the values of the interrupt
    lines.  They are parameters: each handler or setter is any piece of
    driver code.  The lines are the case labels of one switch, hence
    distinct. *)
Class Sx127xInternals : Type := {
  SX127X_IRQ_DIO0 : Z;
  SX127X_IRQ_DIO1 : Z;
  SX127X_IRQ_DIO2 : Z;
  SX127X_IRQ_DIO3 : Z;
  sx127x_on_dio0 : M unit;
  sx127x_on_dio1 : M unit;
  sx127x_on_dio2 : M unit;
  sx127x_on_dio3 : M unit;
  sx127x_set_sleep : M unit;
  sx127x_set_rx : M unit;
  sx127x_set_tx : M unit;
  sx127x_reset : M unit;
  irq_labels_distinct :
    NoDup [SX127X_IRQ_DIO0; SX127X_IRQ_DIO1; SX127X_IRQ_DIO2; SX127X_IRQ_DIO3]
}.

Context {internals : Sx127xInternals}.

Definition with_irq (v : Z) (d : sx127x_t) : sx127x_t :=
  {| settings := settings d; _internal := _internal d; irq := v |}.

Definition with_window_timeout (v : Z) (s : sx127x_radio_settings_t)
    : sx127x_radio_settings_t :=
  {| channel := channel s; state := state s; modem := modem s;
     lora := lora s; window_timeout := v |}.

(** [_isr]: the pending interrupt is taken into a [uint8_t] local and the
    slot is cleared before the switch. *)
Definition _isr : M unit :=
  pending <- gets (fun d => u8 (irq d)) ;;
  modify (with_irq 0) ;;
  if pending =? SX127X_IRQ_DIO0 then sx127x_on_dio0
  else if pending =? SX127X_IRQ_DIO1 then sx127x_on_dio1
  else if pending =? SX127X_IRQ_DIO2 then sx127x_on_dio2
  else if pending =? SX127X_IRQ_DIO3 then sx127x_on_dio3
  else ret tt.

(** The argument of [_set_state]: a state [_get_state] can report, one of
    the two other states the switch names, or any state it does not name. *)
Inductive netopt_state_arg : Type :=
  | Reported (s : netopt_state_t)
  | NETOPT_STATE_RX
  | NETOPT_STATE_RESET
  | NETOPT_STATE_UNNAMED.

Definition _set_state (st : netopt_state_arg) : M retval :=
  match st with
  | Reported NETOPT_STATE_SLEEP =>
      sx127x_set_sleep ;; ret (Ok sizeof_netopt_state_t)
  | Reported NETOPT_STATE_STANDBY =>
      sx127x_set_standby ;; ret (Ok sizeof_netopt_state_t)
  | Reported NETOPT_STATE_IDLE =>
      modify (with_settings (with_window_timeout 0)) ;;
      (* set permanent listening *)
      sx127x_set_rx ;; ret (Ok sizeof_netopt_state_t)
  | NETOPT_STATE_RX =>
      sx127x_set_rx ;; ret (Ok sizeof_netopt_state_t)
  | Reported NETOPT_STATE_TX =>
      sx127x_set_tx ;; ret (Ok sizeof_netopt_state_t)
  | NETOPT_STATE_RESET =>
      sx127x_reset ;; ret (Ok sizeof_netopt_state_t)
  | NETOPT_STATE_UNNAMED => ret (Err ENOTSUP)
  end.

End Driver.

Arguments Outcome {chip A} _ _ _.
Arguments value {chip A} _.
Arguments after {chip A} _.
Arguments calls {chip A} _.

(** ** Vocabulary of the properties *)

Section Vocabulary.

Context {hdr : Sx127xHeaders} {chip : Type} {port : RegisterPort chip}.

(** The chip once [_recv] has acknowledged receive-done, its first step on
    the LoRa path. *)
Definition rx_acknowledged (m : machine) : chip :=
  port_write (hw m) SX127X_REG_LR_IRQFLAGS (u8 SX127X_RF_LORA_IRQFLAGS_RXDONE).

(** The test [_recv] makes on the interrupt flags it reads back. *)
Definition crc_error_flagged (m : machine) : bool :=
  Z.land (u8 (port_read (rx_acknowledged m) SX127X_REG_LR_IRQFLAGS))
         SX127X_RF_LORA_IRQFLAGS_PAYLOADCRCERROR_MASK
  =? SX127X_RF_LORA_IRQFLAGS_PAYLOADCRCERROR.

(** The received-byte count the chip reports to [_recv]. *)
Definition rx_nb_bytes (m : machine) : Z :=
  u8 (port_read (rx_acknowledged m) SX127X_REG_LR_RXNBBYTES).

(** The link-quality reads of [_recv], made when the caller asks for packet
    information. *)
Definition info_reads (info : option netdev_sx127x_lora_packet_info_t)
    : list call :=
  match info with
  | Some _ => [RegRead SX127X_REG_LR_PKTSNRVALUE;
               RegRead SX127X_REG_LR_PKTRSSIVALUE]
  | None => []
  end.

(** The packet information [_recv] computes on the chip [c] for a device
    tuned to the settings [s]. *)
Definition packet_info_of (s : sx127x_radio_settings_t) (c : chip) (len : Z)
    : netdev_sx127x_lora_packet_info_t :=
  let snr_v := snr_of_register (u8 (port_read c SX127X_REG_LR_PKTSNRVALUE)) in
  {| rssi := rssi_of_register (channel s) snr_v
               (u8 (port_read c SX127X_REG_LR_PKTRSSIVALUE));
     lqi := 0;
     snr := snr_v;
     time_on_air := time_on_air_estimate s len |}.

(** Calls that program the outgoing frame: payload length, FIFO addresses,
    FIFO payload. *)
Definition is_fifo_programming (c : call) : bool :=
  match c with
  | RegWrite SX127X_REG_LR_PAYLOADLENGTH _
  | RegWrite SX127X_REG_LR_FIFOTXBASEADDR _
  | RegWrite SX127X_REG_LR_FIFOADDRPTR _
  | WriteFifo _ => true
  | _ => false
  end.

Definition is_fifo_write (c : call) : bool :=
  match c with
  | WriteFifo _ => true
  | _ => false
  end.

Definition is_irq_mask_write (c : call) : bool :=
  match c with
  | RegWrite SX127X_REG_LR_IRQFLAGSMASK _ => true
  | _ => false
  end.

Definition is_timer_arming (c : call) : bool :=
  match c with
  | XtimerSet _ _ => true
  | _ => false
  end.

Definition is_timer_call (c : call) : bool :=
  match c with
  | XtimerSet _ _ | XtimerRemove _ => true
  | _ => false
  end.

(** The FIFO writes of [_send] for a vector, and the chip after them. *)
Definition payload_calls (vector : list iovec) : list call :=
  map (fun v => WriteFifo (iov_base v)) vector.

Definition chip_after_payload (c : chip) (vector : list iovec) : chip :=
  fold_left (fun c' v => port_write_burst c' (iov_base v)) vector c.

(** The calls [_send] makes once the modem-specific part is over. *)
Definition tx_start_calls (timeout dio : Z) : list call :=
  [RegWrite SX127X_REG_LR_IRQFLAGSMASK (u8 tx_irq_mask);
   RegRead SX127X_REG_DIOMAPPING1;
   RegWrite SX127X_REG_DIOMAPPING1 dio;
   XtimerSet TxTimeout timeout;
   RegWrite SX127X_REG_OPMODE (u8 SX127X_RF_OPMODE_TRANSMITTER)].

(** The range [_set] accepts for an option, if it validates one. *)
Definition validated_range (opt : netopt_t) : option (Z * Z) :=
  match opt with
  | NETOPT_BANDWIDTH => Some (SX127X_BW_125_KHZ, SX127X_BW_500_KHZ)
  | NETOPT_SPREADING_FACTOR => Some (SX127X_SF6, SX127X_SF12)
  | NETOPT_CODING_RATE => Some (SX127X_CR_4_5, SX127X_CR_4_8)
  | NETOPT_OTHER => None
  end.

(** The bytes a list of calls sends to the FIFO, in order. *)
Definition fifo_bytes_written (cs : list call) : list Z :=
  flat_map (fun c => match c with WriteFifo bytes => bytes | _ => [] end) cs.

(** All the bytes of a vector, buffer after buffer. *)
Definition vector_bytes (vector : list iovec) : list Z :=
  List.concat (map iov_base vector).

(** The chip once [_send] has programmed the payload length and the two
    FIFO addresses, and the test it then makes on the operating mode. *)
Definition chip_addressed (c : chip) (size : Z) : chip :=
  port_write
    (port_write
       (port_write c SX127X_REG_LR_PAYLOADLENGTH (u8 size))
       SX127X_REG_LR_FIFOTXBASEADDR 0)
    SX127X_REG_LR_FIFOADDRPTR 0.

Definition chip_asleep (c : chip) : bool :=
  u8 (port_read c SX127X_REG_OPMODE) =? SX127X_RF_OPMODE_SLEEP.

(** The descriptor after an accepted send. *)
Definition dev_transmitting (d : sx127x_t) : sx127x_t :=
  with_settings (with_state SX127X_RF_TX_RUNNING)
    (with_timer TxTimeout (Some (tx_timeout (lora (settings d)))) d).


Definition foreign_to_recv (c : call) : bool :=
  match c with
  | WriteFifo _ | XtimerSet _ _ | XtimerUsleep _ | Puts _
  | XtimerRemove TxTimeout => true
  | RegWrite SX127X_REG_LR_IRQFLAGS _
  | RegWrite SX127X_REG_LR_FIFOADDRPTR _ => false
  | RegWrite _ _ => true
  | _ => false
  end.

(** The sizes of the FIFO reads among a list of calls. *)
Definition fifo_read_sizes (cs : list call) : list Z :=
  flat_map (fun c => match c with ReadFifo size => [size] | _ => [] end) cs.

(** The settings a send or a receive may change: only the radio state. *)
Definition same_configuration (d d' : sx127x_t) : Prop :=
  channel (settings d') = channel (settings d)
  /\ modem (settings d') = modem (settings d)
  /\ lora (settings d') = lora (settings d)
  /\ window_timeout (settings d') = window_timeout (settings d)
  /\ irq d' = irq d.

(** The device tuned to another channel. *)
Definition retuned (chan : Z) (m : @machine chip) : @machine chip :=
  Machine
    (with_settings (fun s =>
       {| channel := chan; state := state s; modem := modem s;
          lora := lora s; window_timeout := window_timeout s |}) (dev m))
    (hw m).

(** The command that starts the transmission: the transmitter mode written
    to the operating-mode register. *)
Definition is_transmit_command (c : call) : bool :=
  match c with
  | RegWrite SX127X_REG_OPMODE v => v =? u8 SX127X_RF_OPMODE_TRANSMITTER
  | _ => false
  end.

End Vocabulary.

(** ** A simulated radio, for running the driver on concrete inputs *)

(** Header values of the SX1276 build (MODULE_SX1272 undefined), after the
    Semtech data sheet; the time-on-air estimate is a stand-in. *)
Definition sx1276_headers : Sx127xHeaders.
Proof.
  refine {|
    SX127X_RF_IDLE := 0; SX127X_RF_TX_RUNNING := 2;
    SX127X_MODEM_FSK := 0; SX127X_MODEM_LORA := 1;
    SX127X_RX_CONTINUOUS_FLAG := 16;
    SX127X_RADIO_WAKEUP_TIME := 1000;
    SX127X_BW_125_KHZ := 0; SX127X_BW_500_KHZ := 2;
    SX127X_SF6 := 6; SX127X_SF12 := 12;
    SX127X_CR_4_5 := 1; SX127X_CR_4_8 := 4;
    SX127X_RF_OPMODE_SLEEP := 0; SX127X_RF_OPMODE_STANDBY := 1;
    SX127X_RF_OPMODE_TRANSMITTER := 3; SX127X_RF_OPMODE_RECEIVER := 5;
    SX127X_RF_LORA_OPMODE_RECEIVER_SINGLE := 6;
    SX127X_RF_LORA_IRQFLAGS_RXTIMEOUT := 0x80;
    SX127X_RF_LORA_IRQFLAGS_RXDONE := 0x40;
    SX127X_RF_LORA_IRQFLAGS_PAYLOADCRCERROR := 0x20;
    SX127X_RF_LORA_IRQFLAGS_PAYLOADCRCERROR_MASK := 0x20;
    SX127X_RF_LORA_IRQFLAGS_VALIDHEADER := 0x10;
    SX127X_RF_LORA_IRQFLAGS_CADDONE := 0x04;
    SX127X_RF_LORA_IRQFLAGS_FHSSCHANGEDCHANNEL := 0x02;
    SX127X_RF_LORA_IRQFLAGS_CADDETECTED := 0x01;
    SX127X_RF_LORA_DIOMAPPING1_DIO0_MASK := 0x3F;
    SX127X_RF_LORA_DIOMAPPING1_DIO0_01 := 0x40;
    MODULE_SX1272 := false;
    SX127X_RSSI_OFFSET := -139;
    SX127X_RSSI_OFFSET_HF := -157;
    SX127X_RSSI_OFFSET_LF := -164;
    SX127X_RF_MID_BAND_THRESH := 525000000;
    sizeof_netopt_state_t := 4;
    rssi_field := i16;
    time_on_air_estimate := fun s len => (len + 13) * 2 ^ spreading_factor (lora s)
  |}.
  - discriminate.
  - repeat constructor; simpl; intuition discriminate.
Defined.

(** The same headers for the SX1272 build. *)
Definition sx1272_headers : Sx127xHeaders.
Proof.
  refine {|
    SX127X_RF_IDLE := 0; SX127X_RF_TX_RUNNING := 2;
    SX127X_MODEM_FSK := 0; SX127X_MODEM_LORA := 1;
    SX127X_RX_CONTINUOUS_FLAG := 16;
    SX127X_RADIO_WAKEUP_TIME := 1000;
    SX127X_BW_125_KHZ := 0; SX127X_BW_500_KHZ := 2;
    SX127X_SF6 := 6; SX127X_SF12 := 12;
    SX127X_CR_4_5 := 1; SX127X_CR_4_8 := 4;
    SX127X_RF_OPMODE_SLEEP := 0; SX127X_RF_OPMODE_STANDBY := 1;
    SX127X_RF_OPMODE_TRANSMITTER := 3; SX127X_RF_OPMODE_RECEIVER := 5;
    SX127X_RF_LORA_OPMODE_RECEIVER_SINGLE := 6;
    SX127X_RF_LORA_IRQFLAGS_RXTIMEOUT := 0x80;
    SX127X_RF_LORA_IRQFLAGS_RXDONE := 0x40;
    SX127X_RF_LORA_IRQFLAGS_PAYLOADCRCERROR := 0x20;
    SX127X_RF_LORA_IRQFLAGS_PAYLOADCRCERROR_MASK := 0x20;
    SX127X_RF_LORA_IRQFLAGS_VALIDHEADER := 0x10;
    SX127X_RF_LORA_IRQFLAGS_CADDONE := 0x04;
    SX127X_RF_LORA_IRQFLAGS_FHSSCHANGEDCHANNEL := 0x02;
    SX127X_RF_LORA_IRQFLAGS_CADDETECTED := 0x01;
    SX127X_RF_LORA_DIOMAPPING1_DIO0_MASK := 0x3F;
    SX127X_RF_LORA_DIOMAPPING1_DIO0_01 := 0x40;
    MODULE_SX1272 := true;
    SX127X_RSSI_OFFSET := -139;
    SX127X_RSSI_OFFSET_HF := -157;
    SX127X_RSSI_OFFSET_LF := -164;
    SX127X_RF_MID_BAND_THRESH := 525000000;
    sizeof_netopt_state_t := 4;
    rssi_field := i16;
    time_on_air_estimate := fun s len => (len + 13) * 2 ^ spreading_factor (lora s)
  |}.
  - discriminate.
  - repeat constructor; simpl; intuition discriminate.
Defined.

(** A register file and a FIFO.  A write to the interrupt-flags register
    clears the flags written as one; every other register stores the byte. *)
Record sim_chip : Type := { sim_regs : reg -> Z; sim_fifo : list Z }.

Definition sim_write (c : sim_chip) (r : reg) (v : Z) : sim_chip :=
  let stored :=
    match r with
    | SX127X_REG_LR_IRQFLAGS => Z.land (sim_regs c r) (Z.lnot v)
    | _ => v
    end in
  {| sim_regs := fun r' => if reg_eqb r' r then stored else sim_regs c r';
     sim_fifo := sim_fifo c |}.

#[local] Instance sim_port : RegisterPort sim_chip := {|
  port_read := sim_regs;
  port_write := sim_write;
  port_write_burst := fun c bytes =>
    {| sim_regs := sim_regs c; sim_fifo := sim_fifo c ++ bytes |};
  port_read_burst := fun c size => (firstn (Z.to_nat size) (sim_fifo c), c)
|}.

(** A chip holding a five-byte packet, with the given operating mode and
    interrupt flags. *)
Definition sim_chip_with (op_mode irq_flags : Z) : sim_chip :=
  {| sim_regs := fun r =>
       match r with
       | SX127X_REG_OPMODE => op_mode
       | SX127X_REG_LR_IRQFLAGS => irq_flags
       | SX127X_REG_LR_RXNBBYTES => 5
       | SX127X_REG_LR_PKTSNRVALUE => 0xFC
       | SX127X_REG_LR_PKTRSSIVALUE => 100
       | _ => 0
       end;
     sim_fifo := [1; 2; 3; 4; 5] |}.

(** A descriptor in the given radio state and modem, tuned to 868 MHz,
    single-shot receive, with both timeouts armed. *)
Definition sim_dev (st md : Z) : sx127x_t :=
  {| settings :=
       {| channel := 868000000; state := st; modem := md;
          lora := {| bandwidth := 0; spreading_factor := 7; coding_rate := 1;
                     flags := 0; tx_timeout := 30000 |};
          window_timeout := 0 |};
     _internal := {| tx_timeout_timer := Some 30000;
                     rx_timeout_timer := Some 10000 |};
     irq := 0 |}.

Definition sim_machine (st md op_mode irq_flags : Z) : machine :=
  Machine (sim_dev st md) (sim_chip_with op_mode irq_flags).

(** Stand-ins for the missing handlers and setters: each one leaves a
    recognisable mark. *)
#[local] Instance sim_internals : Sx127xInternals (chip := sim_chip) := {|
  SX127X_IRQ_DIO0 := 1;
  SX127X_IRQ_DIO1 := 2;
  SX127X_IRQ_DIO2 := 4;
  SX127X_IRQ_DIO3 := 8;
  sx127x_on_dio0 := xtimer_remove TxTimeout;
  sx127x_on_dio1 := xtimer_remove RxTimeout;
  sx127x_on_dio2 := xtimer_usleep 2;
  sx127x_on_dio3 := xtimer_usleep 3;
  sx127x_set_sleep := sx127x_reg_write SX127X_REG_OPMODE 0;
  sx127x_set_rx := sx127x_reg_write SX127X_REG_OPMODE 5;
  sx127x_set_tx := sx127x_reg_write SX127X_REG_OPMODE 3;
  sx127x_reset := xtimer_usleep 1000;
  irq_labels_distinct := ltac:(repeat constructor; simpl; intuition discriminate)
|}.

(** The devices the runs below start from. *)
Definition sim_transmitting : machine := sim_machine 2 1 3 0.
Definition sim_lora_asleep : machine := sim_machine 0 1 0 0.
Definition sim_lora_received : machine := sim_machine 0 1 5 0x40.
Definition sim_lora_crc_error : machine := sim_machine 0 1 5 0x60.
Definition sim_fsk_received : machine := sim_machine 0 0 5 0x40.
Definition sim_fsk_crc_error : machine := sim_machine 0 0 5 0x60.

Definition sim_vector : list iovec :=
  [{| iov_base := [0xCA; 0xFE] |}; {| iov_base := [0x2A] |}].

Definition sim_info : netdev_sx127x_lora_packet_info_t :=
  {| rssi := 0; lqi := 0; snr := 0; time_on_air := 0 |}.

(** A standby device with the given interrupt pending, a device whose chip
    reports a raw mode the driver does not name, and an eight-byte buffer. *)
Definition sim_pending (line : Z) : machine :=
  Machine (with_irq line (sim_dev 0 1)) (sim_chip_with 1 0).

Definition sim_unnamed_mode : machine := sim_machine 0 1 7 0.

Definition sim_buffer : list Z := [9; 9; 9; 9; 9; 9; 9; 9].

(** ** Properties *)

Section Properties.

Context {hdr : Sx127xHeaders} {chip : Type} {port : RegisterPort chip}.

(** Unfolds the monad and the collaborators down to records. *)
Ltac run :=
  unfold _send, _recv, _get, _set, _get_state,
    sx127x_set_payload_length, sx127x_set_standby, sx127x_set_op_mode,
    sx127x_get_op_mode, sx127x_get_state, sx127x_set_state,
    sx127x_set_bandwidth, sx127x_set_spreading_factor, sx127x_set_coding_rate,
    sx127x_get_bandwidth, sx127x_get_spreading_factor, sx127x_get_coding_rate,
    sx127x_get_time_on_air, sx127x_reg_write, sx127x_reg_read,
    sx127x_read_fifo, xtimer_set, xtimer_remove, xtimer_usleep,
    event_callback, puts, gets, modify, bind, ret;
  cbn [value after calls dev hw app].

(** *** Send *)

(** C1 (as the code has it): on a device whose state is the transmitting one,
    [_send] returns [-ENOTSUP], makes no call at all (no register or FIFO
    write, no timer armed) and leaves descriptor and chip as they were. *)
Theorem send_while_transmitting_rejected :
  forall (m : machine) (vector : list iovec),
    state (settings (dev m)) = SX127X_RF_TX_RUNNING ->
    _send vector m = Outcome (Err ENOTSUP) m [].
Proof.
  intros m vector Htx. run.
  rewrite Htx, Z.eqb_refl. reflexivity.
Qed.

Lemma write_payload_run :
  forall (vector : list iovec) (m : machine),
    write_payload vector m
    = Outcome tt (Machine (dev m) (chip_after_payload (hw m) vector))
              (payload_calls vector).
Proof.
  induction vector as [|v rest IH]; intros m.
  - destruct m; reflexivity.
  - cbn [write_payload]. unfold bind, sx127x_write_fifo.
    rewrite IH. reflexivity.
Qed.

Lemma payload_calls_forallb :
  forall p : call -> bool,
    (forall bytes, p (WriteFifo bytes) = true) ->
    forall vector : list iovec, forallb p (payload_calls vector) = true.
Proof.
  intros p Hp. induction vector as [|v rest IH]; [reflexivity|].
  change (payload_calls (v :: rest))
    with (WriteFifo (iov_base v) :: payload_calls rest).
  cbn [forallb]. now rewrite Hp, IH.
Qed.

Lemma payload_calls_fifo_writes :
  forall vector : list iovec,
    filter is_fifo_write (payload_calls vector) = payload_calls vector.
Proof.
  induction vector as [|v rest IH]; [reflexivity|].
  change (payload_calls (v :: rest))
    with (WriteFifo (iov_base v) :: payload_calls rest).
  cbn [filter is_fifo_write]. now rewrite IH.
Qed.

Lemma u8_idempotent : forall z : Z, u8 (u8 z) = u8 z.
Proof. intros z. unfold u8. apply Z.mod_mod. lia. Qed.

Lemma u8_range : forall z : Z, 0 <= u8 z < 256.
Proof. intros z. unfold u8. apply Z.mod_pos_bound. lia. Qed.

Lemma get_tx_len_from :
  forall (vector : list iovec) (a : Z),
    fold_left (fun len v => u8 (len + iov_len v)) vector (u8 a)
    = u8 (a + Z.of_nat (List.length (vector_bytes vector))).
Proof.
  induction vector as [|v rest IH]; intros a.
  - cbn. now rewrite Z.add_0_r.
  - cbn [fold_left]. rewrite IH. unfold vector_bytes, iov_len, u8.
    cbn [map List.concat]. rewrite length_app, Nat2Z.inj_add.
    rewrite <- Z.add_assoc. now rewrite Z.add_mod_idemp_l by lia.
Qed.

Lemma get_tx_len_total :
  forall vector : list iovec,
    _get_tx_len vector = u8 (Z.of_nat (List.length (vector_bytes vector))).
Proof.
  intros vector. unfold _get_tx_len. change 0 with (u8 0) at 1.
  now rewrite get_tx_len_from.
Qed.

(** C9: a send on a LoRa device that is not transmitting returns 0 and
    makes exactly the following calls, in this order.  First the payload
    length (the byte count of the vector modulo 256) and the two FIFO
    addresses are programmed and the operating mode is read; if it is the
    sleep mode the chip is sent to standby and given its wake-up time; then
    every buffer of the vector is written to the FIFO, in vector order.  Only
    then is the interrupt-mask register written, once, with every LoRa
    interrupt source but transmit-done.  After it come the DIO mapping, the
    arming of the tx timeout and, last, the transmitter mode.  No FIFO
    programming follows the mask write; no mask write, no timer arming and
    no transmit command precedes it. *)
Theorem send_lora_frame_before_irq_mask :
  forall (m : machine) (vector : list iovec),
    state (settings (dev m)) <> SX127X_RF_TX_RUNNING ->
    modem (settings (dev m)) = SX127X_MODEM_LORA ->
    let len :=
      Z.of_nat (List.length (List.concat (map iov_base vector))) mod 256 in
    let addressed :=
      port_write
        (port_write (port_write (hw m) SX127X_REG_LR_PAYLOADLENGTH len)
                    SX127X_REG_LR_FIFOTXBASEADDR 0)
        SX127X_REG_LR_FIFOADDRPTR 0 in
    let asleep :=
      u8 (port_read addressed SX127X_REG_OPMODE) =? SX127X_RF_OPMODE_SLEEP in
    let wake :=
      if asleep
      then [RegWrite SX127X_REG_OPMODE (u8 SX127X_RF_OPMODE_STANDBY);
            XtimerUsleep SX127X_RADIO_WAKEUP_TIME]
      else [] in
    let woken :=
      if asleep
      then port_write addressed SX127X_REG_OPMODE
                      (u8 SX127X_RF_OPMODE_STANDBY)
      else addressed in
    let loaded :=
      fold_left (fun c v => port_write_burst c (iov_base v)) vector woken in
    let mask :=
      u8 (Z.lor SX127X_RF_LORA_IRQFLAGS_RXTIMEOUT
         (Z.lor SX127X_RF_LORA_IRQFLAGS_RXDONE
         (Z.lor SX127X_RF_LORA_IRQFLAGS_PAYLOADCRCERROR
         (Z.lor SX127X_RF_LORA_IRQFLAGS_VALIDHEADER
         (Z.lor SX127X_RF_LORA_IRQFLAGS_CADDONE
         (Z.lor SX127X_RF_LORA_IRQFLAGS_FHSSCHANGEDCHANNEL
                SX127X_RF_LORA_IRQFLAGS_CADDETECTED)))))) in
    let masked := port_write loaded SX127X_REG_LR_IRQFLAGSMASK mask in
    let dio :=
      u8 (Z.lor (Z.land (u8 (port_read masked SX127X_REG_DIOMAPPING1))
                        SX127X_RF_LORA_DIOMAPPING1_DIO0_MASK)
                SX127X_RF_LORA_DIOMAPPING1_DIO0_01) in
    let pre :=
      [RegWrite SX127X_REG_LR_PAYLOADLENGTH len;
       RegWrite SX127X_REG_LR_FIFOTXBASEADDR 0;
       RegWrite SX127X_REG_LR_FIFOADDRPTR 0;
       RegRead SX127X_REG_OPMODE]
      ++ wake ++ map (fun v => WriteFifo (iov_base v)) vector in
    let post :=
      [RegRead SX127X_REG_DIOMAPPING1;
       RegWrite SX127X_REG_DIOMAPPING1 dio;
       XtimerSet TxTimeout (tx_timeout (lora (settings (dev m))));
       RegWrite SX127X_REG_OPMODE (u8 SX127X_RF_OPMODE_TRANSMITTER)] in
    value (_send vector m) = Ok 0
    /\ calls (_send vector m)
       = pre ++ (RegWrite SX127X_REG_LR_IRQFLAGSMASK mask :: post)
    /\ filter is_fifo_write pre = map (fun v => WriteFifo (iov_base v)) vector
    /\ forallb (fun c => negb (is_irq_mask_write c)) pre = true
    /\ forallb (fun c => negb (is_timer_arming c)) pre = true
    /\ (u8 SX127X_RF_OPMODE_STANDBY <> u8 SX127X_RF_OPMODE_TRANSMITTER ->
        forallb (fun c => negb (is_transmit_command c)) pre = true)
    /\ forallb (fun c => negb (is_fifo_programming c)) post = true
    /\ forallb (fun c => negb (is_irq_mask_write c)) post = true
    /\ last post (RegRead SX127X_REG_OPMODE)
       = RegWrite SX127X_REG_OPMODE (u8 SX127X_RF_OPMODE_TRANSMITTER).
Proof.
  intros m vector Hidle Hlora.
  change (Z.of_nat (List.length (List.concat (map iov_base vector))) mod 256)
    with (u8 (Z.of_nat (List.length (vector_bytes vector)))).
  change (map (fun v => WriteFifo (iov_base v)) vector)
    with (payload_calls vector).
  change (u8 (Z.lor SX127X_RF_LORA_IRQFLAGS_RXTIMEOUT _))
    with (u8 tx_irq_mask).
  cbv zeta.
  assert (Hfsk : (modem (settings (dev m)) =? SX127X_MODEM_FSK) = false).
  { apply Z.eqb_neq. rewrite Hlora. intro E. symmetry in E.
    exact (modem_labels_distinct E). }
  apply Z.eqb_neq in Hidle. apply Z.eqb_eq in Hlora.
  run. rewrite Hidle, Hfsk, Hlora.
  rewrite get_tx_len_total, u8_idempotent. change (u8 0) with 0.
  match goal with |- context [if ?c then _ else _] => destruct c end;
    cbn [value after calls dev hw app]; rewrite write_payload_run;
    cbn [value after calls dev hw app];
    (split; [reflexivity|]); (split; [reflexivity|]).
  all: cbn [app filter forallb is_fifo_write is_irq_mask_write
            is_timer_arming is_transmit_command is_fifo_programming
            negb andb last].
  all: rewrite payload_calls_fifo_writes;
    rewrite !payload_calls_forallb by reflexivity.
  all: repeat split; try reflexivity.
  - intros Hdistinct. apply Z.eqb_neq in Hdistinct. now rewrite Hdistinct.
Qed.

(** C10: on a device whose modem is not LoRa (FSK, or a value the switch
    does not name) and which is not transmitting, [_send] returns 0 and makes
    exactly these calls: the console message if the modem is unnamed, then
    the write of the interrupt-mask register with every LoRa interrupt
    source but transmit-done, the DIO mapping, the arming of the tx timeout
    with the configured duration and the transmitter mode.  The tx timeout is
    left armed, the state is the transmitting one, and nothing is written to
    the FIFO. *)
Theorem send_non_lora_starts_tx_without_payload :
  forall (m : machine) (vector : list iovec),
    state (settings (dev m)) <> SX127X_RF_TX_RUNNING ->
    modem (settings (dev m)) <> SX127X_MODEM_LORA ->
    let mask :=
      u8 (Z.lor SX127X_RF_LORA_IRQFLAGS_RXTIMEOUT
         (Z.lor SX127X_RF_LORA_IRQFLAGS_RXDONE
         (Z.lor SX127X_RF_LORA_IRQFLAGS_PAYLOADCRCERROR
         (Z.lor SX127X_RF_LORA_IRQFLAGS_VALIDHEADER
         (Z.lor SX127X_RF_LORA_IRQFLAGS_CADDONE
         (Z.lor SX127X_RF_LORA_IRQFLAGS_FHSSCHANGEDCHANNEL
                SX127X_RF_LORA_IRQFLAGS_CADDETECTED)))))) in
    let masked := port_write (hw m) SX127X_REG_LR_IRQFLAGSMASK mask in
    let dio :=
      u8 (Z.lor (Z.land (u8 (port_read masked SX127X_REG_DIOMAPPING1))
                        SX127X_RF_LORA_DIOMAPPING1_DIO0_MASK)
                SX127X_RF_LORA_DIOMAPPING1_DIO0_01) in
    let timeout := tx_timeout (lora (settings (dev m))) in
    value (_send vector m) = Ok 0
    /\ calls (_send vector m)
       = (if modem (settings (dev m)) =? SX127X_MODEM_FSK then []
          else [Puts "sx127x_netdev, Unsupported modem"])
         ++ [RegWrite SX127X_REG_LR_IRQFLAGSMASK mask;
             RegRead SX127X_REG_DIOMAPPING1;
             RegWrite SX127X_REG_DIOMAPPING1 dio;
             XtimerSet TxTimeout timeout;
             RegWrite SX127X_REG_OPMODE (u8 SX127X_RF_OPMODE_TRANSMITTER)]
    /\ In (RegWrite SX127X_REG_LR_IRQFLAGSMASK mask) (calls (_send vector m))
    /\ In (XtimerSet TxTimeout timeout) (calls (_send vector m))
    /\ tx_timeout_timer (_internal (dev (after (_send vector m))))
       = Some timeout
    /\ state (settings (dev (after (_send vector m)))) = SX127X_RF_TX_RUNNING
    /\ forallb (fun c => negb (is_fifo_programming c)) (calls (_send vector m))
       = true
    /\ hw (after (_send vector m))
       = port_write (port_write masked SX127X_REG_DIOMAPPING1 dio)
                    SX127X_REG_OPMODE (u8 SX127X_RF_OPMODE_TRANSMITTER).
Proof.
  intros m vector Hidle Hmodem.
  change (u8 (Z.lor SX127X_RF_LORA_IRQFLAGS_RXTIMEOUT _))
    with (u8 tx_irq_mask).
  cbv zeta.
  apply Z.eqb_neq in Hidle. apply Z.eqb_neq in Hmodem.
  run. rewrite Hidle, Hmodem.
  destruct (modem (settings (dev m)) =? SX127X_MODEM_FSK);
    cbn; repeat split; auto 10.
Qed.

(** *** Receive *)

Lemma lora_is_not_fsk :
  forall md : Z,
    md = SX127X_MODEM_LORA -> (md =? SX127X_MODEM_FSK) = false.
Proof.
  intros md ->. apply Z.eqb_neq. intro E. symmetry in E.
  exact (modem_labels_distinct E).
Qed.

(** Brings a LoRa receive down to the test on the interrupt flags. *)
Ltac run_recv Hlora Hcrc :=
  run;
  rewrite (lora_is_not_fsk _ Hlora);
  rewrite (proj2 (Z.eqb_eq _ _) Hlora);
  unfold crc_error_flagged, rx_acknowledged in Hcrc;
  rewrite Hcrc;
  cbn [value after calls dev hw app].

(** The packet information a LoRa receive hands back when no CRC error is
    flagged, whatever the buffer: untouched for a NULL [info], and otherwise
    computed from the two link-quality registers, the channel and the
    requested length. *)
Lemma recv_lora_packet_info :
  forall (m : machine) (buf : option (list Z)) (len : Z)
         (info : option netdev_sx127x_lora_packet_info_t),
    modem (settings (dev m)) = SX127X_MODEM_LORA ->
    crc_error_flagged m = false ->
    recv_info (value (_recv buf len info m))
    = match info with
      | Some _ => Some (packet_info_of (settings (dev m)) (rx_acknowledged m) len)
      | None => None
      end.
Proof.
  intros m buf len info Hlora Hcrc. run_recv Hlora Hcrc.
  destruct info as [i|], buf as [b|]; cbn [value after calls dev hw app];
    try reflexivity;
    match goal with |- context [if ?c then _ else _] => destruct c end;
    try reflexivity;
    match goal with |- context [if ?c then _ else _] => destruct c end;
    reflexivity.
Qed.

(** C4 (LoRa modem): a receive with a NULL buffer, when no CRC error is
    flagged, returns the received-byte count the chip reports; it leaves the
    descriptor (radio state, both timers) as it was, calls no timer
    function, and touches the chip only to acknowledge receive-done. *)
Theorem recv_probe_returns_count :
  forall (m : machine) (len : Z)
         (info : option netdev_sx127x_lora_packet_info_t),
    modem (settings (dev m)) = SX127X_MODEM_LORA ->
    crc_error_flagged m = false ->
    let o := _recv None len info m in
    recv_ret (value o) = Ok (rx_nb_bytes m)
    /\ rx_nb_bytes m = u8 (port_read (hw (after o)) SX127X_REG_LR_RXNBBYTES)
    /\ recv_buf (value o) = None
    /\ dev (after o) = dev m
    /\ hw (after o) = rx_acknowledged m
    /\ forallb (fun c => negb (is_timer_call c)) (calls o) = true
    /\ calls o = [RegWrite SX127X_REG_LR_IRQFLAGS
                           (u8 SX127X_RF_LORA_IRQFLAGS_RXDONE);
                  RegRead SX127X_REG_LR_IRQFLAGS]
                 ++ info_reads info ++ [RegRead SX127X_REG_LR_RXNBBYTES].
Proof.
  intros m len info Hlora Hcrc o. subst o. run_recv Hlora Hcrc.
  destruct info as [i|]; cbn; repeat split; reflexivity.
Qed.

(** C5 (LoRa modem, a buffer present, no CRC error flagged): when the
    received length exceeds the capacity [len], [_recv] returns [-ENOBUFS];
    the descriptor (radio state, both timers) and the caller's buffer are as
    they were, no timer function is called, and the FIFO is neither read nor
    re-addressed: the chip is touched only to acknowledge receive-done. *)
Theorem recv_buffer_too_small :
  forall (m : machine) (b : list Z) (len : Z)
         (info : option netdev_sx127x_lora_packet_info_t),
    modem (settings (dev m)) = SX127X_MODEM_LORA ->
    crc_error_flagged m = false ->
    rx_nb_bytes m > len ->
    let o := _recv (Some b) len info m in
    recv_ret (value o) = Err ENOBUFS
    /\ recv_buf (value o) = Some b
    /\ dev (after o) = dev m
    /\ hw (after o) = rx_acknowledged m
    /\ forallb (fun c => negb (is_timer_call c)) (calls o) = true
    /\ calls o = [RegWrite SX127X_REG_LR_IRQFLAGS
                           (u8 SX127X_RF_LORA_IRQFLAGS_RXDONE);
                  RegRead SX127X_REG_LR_IRQFLAGS]
                 ++ info_reads info ++ [RegRead SX127X_REG_LR_RXNBBYTES].
Proof.
  intros m b len info Hlora Hcrc Hbig o. subst o.
  apply Z.gt_lt, Z.gtb_lt in Hbig. unfold rx_nb_bytes, rx_acknowledged in Hbig.
  run_recv Hlora Hcrc.
  destruct info as [i|]; cbn [value after calls dev hw app];
    rewrite Hbig; cbn; repeat split; reflexivity.
Qed.

(** C6 (LoRa modem): when the CRC-error flag is set in the interrupt flags
    read back, [_recv] clears that flag, cancels the rx timeout, signals
    [NETDEV_EVENT_CRC_ERROR], in that order, and returns [-EBADMSG]; the
    caller's buffer and packet information are as they were; the radio state
    becomes the idle one unless continuous receive is enabled, in which case
    it is unchanged. *)
Theorem recv_crc_error :
  forall (m : machine) (buf : option (list Z)) (len : Z)
         (info : option netdev_sx127x_lora_packet_info_t),
    modem (settings (dev m)) = SX127X_MODEM_LORA ->
    crc_error_flagged m = true ->
    let o := _recv buf len info m in
    recv_ret (value o) = Err EBADMSG
    /\ recv_buf (value o) = buf
    /\ recv_info (value o) = info
    /\ calls o = [RegWrite SX127X_REG_LR_IRQFLAGS
                           (u8 SX127X_RF_LORA_IRQFLAGS_RXDONE);
                  RegRead SX127X_REG_LR_IRQFLAGS;
                  RegWrite SX127X_REG_LR_IRQFLAGS
                           (u8 SX127X_RF_LORA_IRQFLAGS_PAYLOADCRCERROR);
                  XtimerRemove RxTimeout;
                  EventCallback NETDEV_EVENT_CRC_ERROR]
    /\ hw (after o)
       = port_write (rx_acknowledged m) SX127X_REG_LR_IRQFLAGS
                    (u8 SX127X_RF_LORA_IRQFLAGS_PAYLOADCRCERROR)
    /\ rx_timeout_timer (_internal (dev (after o))) = None
    /\ tx_timeout_timer (_internal (dev (after o)))
       = tx_timeout_timer (_internal (dev m))
    /\ state (settings (dev (after o)))
       = (if rx_single_shot (dev m) then SX127X_RF_IDLE
          else state (settings (dev m))).
Proof.
  intros m buf len info Hlora Hcrc o. subst o. run_recv Hlora Hcrc.
  destruct (rx_single_shot (dev m)); cbn; repeat split; reflexivity.
Qed.

(** C7 (build without MODULE_SX1272): in the packet information of a LoRa
    receive the RSSI is the packet-RSSI register plus a sixteenth of it plus
    an offset, the high-frequency one on a channel strictly above the mid-band
    threshold and the low-frequency one at or below it, and the SNR is added
    exactly when the SNR just stored is negative. *)
Theorem recv_rssi_band_and_snr :
  forall (m : machine) (buf : option (list Z)) (len : Z)
         (i : netdev_sx127x_lora_packet_info_t),
    MODULE_SX1272 = false ->
    modem (settings (dev m)) = SX127X_MODEM_LORA ->
    crc_error_flagged m = false ->
    exists pi : netdev_sx127x_lora_packet_info_t,
      recv_info (value (_recv buf len (Some i) m)) = Some pi
      /\ snr pi = snr_of_register
                    (u8 (port_read (rx_acknowledged m) SX127X_REG_LR_PKTSNRVALUE))
      /\ let chan := channel (settings (dev m)) in
         let raw :=
           i16 (u8 (port_read (rx_acknowledged m) SX127X_REG_LR_PKTRSSIVALUE)) in
         (chan > SX127X_RF_MID_BAND_THRESH -> snr pi < 0 ->
          rssi pi = rssi_field (SX127X_RSSI_OFFSET_HF + raw + Z.shiftr raw 4
                                + snr pi))
         /\ (chan > SX127X_RF_MID_BAND_THRESH -> 0 <= snr pi ->
             rssi pi = rssi_field (SX127X_RSSI_OFFSET_HF + raw + Z.shiftr raw 4))
         /\ (chan <= SX127X_RF_MID_BAND_THRESH -> snr pi < 0 ->
             rssi pi = rssi_field (SX127X_RSSI_OFFSET_LF + raw + Z.shiftr raw 4
                                   + snr pi))
         /\ (chan <= SX127X_RF_MID_BAND_THRESH -> 0 <= snr pi ->
             rssi pi = rssi_field (SX127X_RSSI_OFFSET_LF + raw + Z.shiftr raw 4)).
Proof.
  intros m buf len i Hbuild Hlora Hcrc.
  rewrite (recv_lora_packet_info m buf len (Some i) Hlora Hcrc).
  eexists. split; [reflexivity|]. split; [reflexivity|].
  cbn [packet_info_of rssi snr]. unfold rssi_of_register. rewrite Hbuild.
  set (s := snr_of_register _). set (raw := i16 _).
  repeat split; intros Hchan Hsnr.
  - apply Z.gt_lt, Z.gtb_lt in Hchan. apply Z.ltb_lt in Hsnr.
    now rewrite Hchan, Hsnr.
  - apply Z.gt_lt, Z.gtb_lt in Hchan. apply Z.ltb_ge in Hsnr.
    now rewrite Hchan, Hsnr.
  - assert (Hle : (channel (settings (dev m)) >? SX127X_RF_MID_BAND_THRESH) = false)
      by (rewrite Z.gtb_ltb; now apply Z.ltb_ge).
    apply Z.ltb_lt in Hsnr. now rewrite Hle, Hsnr.
  - assert (Hle : (channel (settings (dev m)) >? SX127X_RF_MID_BAND_THRESH) = false)
      by (rewrite Z.gtb_ltb; now apply Z.ltb_ge).
    apply Z.ltb_ge in Hsnr. now rewrite Hle, Hsnr.
Qed.

(** The SNR of every register byte, checked one by one. *)
Lemma snr_of_register_table :
  forallb (fun v => snr_of_register v =? i8 v / 4)
          (map Z.of_nat (seq 0 256)) = true.
Proof. vm_compute. reflexivity. Qed.

Lemma snr_of_register_signed_quarter :
  forall v : Z, 0 <= v < 256 -> snr_of_register v = i8 v / 4.
Proof.
  intros v Hv. apply Z.eqb_eq.
  pose proof snr_of_register_table as T.
  rewrite forallb_forall in T. apply T.
  apply in_map_iff. exists (Z.to_nat v). split; [lia|].
  apply in_seq. lia.
Qed.

(** Every SNR fits the signed byte it is stored in. *)
Lemma snr_of_register_range :
  forall v : Z, 0 <= v < 256 -> -32 <= snr_of_register v <= 63.
Proof.
  intros v Hv. rewrite snr_of_register_signed_quarter by assumption.
  unfold i8.
  assert (H : 0 <= (v + 128) mod 256 < 256) by (apply Z.mod_pos_bound; lia).
  split.
  - apply Z.div_le_lower_bound; lia.
  - apply Z.div_le_upper_bound; lia.
Qed.

(** C2 (as the code has it): the SNR derived from the packet-SNR register is
    -32 for 0x80, 1 for 0x04 and -1 for 0xFC.  A byte with the top bit set is
    negated to its magnitude, the magnitude is multiplied by -1 and the
    product is shifted right by two, which rounds toward minus infinity;
    a byte with the top bit clear is shifted right by two.  Either way the
    result is the byte read as a signed number, divided by four with the
    quotient rounded down. *)
Theorem snr_sign_handling :
  snr_of_register 0x80 = -32
  /\ snr_of_register 0x04 = 1
  /\ snr_of_register 0xFC = -1
  /\ forall v : Z, 0 <= v < 256 ->
       snr_of_register v = i8 v / 4
       /\ (v < 128 -> snr_of_register v = Z.shiftr v 2)
       /\ (128 <= v -> snr_of_register v = Z.shiftr (- (256 - v)) 2).
Proof.
  repeat split; try reflexivity.
  - now apply snr_of_register_signed_quarter.
  - intros Hlow. rewrite snr_of_register_signed_quarter by assumption.
    rewrite Z.shiftr_div_pow2 by lia. unfold i8.
    replace ((v + 128) mod 256) with (v + 128) by (rewrite Z.mod_small; lia).
    f_equal. lia.
  - intros Hhigh. rewrite snr_of_register_signed_quarter by assumption.
    rewrite Z.shiftr_div_pow2 by lia. unfold i8.
    replace ((v + 128) mod 256) with (v - 128).
    + f_equal. lia.
    + replace (v + 128) with (v - 128 + 1 * 256) by lia.
      rewrite Z.mod_add by lia. rewrite Z.mod_small; lia.
Qed.

(** *** Configuration *)

(** C3: for each validated option (bandwidth, spreading factor, coding
    rate) and each byte [v]: inside the option's range [_set] succeeds and a
    following [_get] stores [v]; outside it [_set] returns [-EINVAL], makes no
    call, and leaves settings and chip as they were. *)
Theorem set_validated_option_roundtrip :
  forall (m : machine) (opt : netopt_t) (lo hi v : Z),
    validated_range opt = Some (lo, hi) ->
    0 <= v < 256 ->
    (lo <= v <= hi ->
     value (_set opt v m) = Ok 1
     /\ value (_get opt (after (_set opt v m))) = (Ok 1, Some v))
    /\ (~ (lo <= v <= hi) ->
        _set opt v m = Outcome (Err EINVAL) m []).
Proof.
  intros m opt lo hi v Hrange Hbyte.
  assert (Hu : u8 v = v) by (unfold u8; apply Z.mod_small; exact Hbyte).
  destruct opt; inversion Hrange; subst lo hi; clear Hrange; split; intros Hv.
  all: run; rewrite ?Hu.
  all: match goal with |- context [(?x <? ?a) || (?x >? ?b)] =>
         destruct (Z.ltb_spec x a); destruct (Z.gtb_spec x b);
         cbn [orb value after calls dev hw app] end.
  all: try lia.
  all: try (destruct m; reflexivity).
  all: cbn; rewrite Hu; split; reflexivity.
Qed.

(** *** State query *)

Lemma opmode_labels_neq :
  SX127X_RF_OPMODE_SLEEP <> SX127X_RF_OPMODE_STANDBY
  /\ SX127X_RF_OPMODE_SLEEP <> SX127X_RF_OPMODE_TRANSMITTER
  /\ SX127X_RF_OPMODE_SLEEP <> SX127X_RF_OPMODE_RECEIVER
  /\ SX127X_RF_OPMODE_SLEEP <> SX127X_RF_LORA_OPMODE_RECEIVER_SINGLE
  /\ SX127X_RF_OPMODE_STANDBY <> SX127X_RF_OPMODE_TRANSMITTER
  /\ SX127X_RF_OPMODE_STANDBY <> SX127X_RF_OPMODE_RECEIVER
  /\ SX127X_RF_OPMODE_STANDBY <> SX127X_RF_LORA_OPMODE_RECEIVER_SINGLE
  /\ SX127X_RF_OPMODE_TRANSMITTER <> SX127X_RF_OPMODE_RECEIVER
  /\ SX127X_RF_OPMODE_TRANSMITTER <> SX127X_RF_LORA_OPMODE_RECEIVER_SINGLE.
Proof.
  pose proof opmode_labels_distinct as N.
  inversion N as [|a la Ha Na]; subst.
  inversion Na as [|b lb Hb Nb]; subst.
  inversion Nb as [|c lc Hc Nc]; subst.
  cbn [In] in Ha, Hb, Hc.
  repeat split; intro E;
    first [ apply Ha; rewrite E; solve [auto 6]
          | apply Hb; rewrite E; solve [auto 6]
          | apply Hc; rewrite E; solve [auto 6] ].
Qed.

(** The part of C8 that holds: [_get_state] reads the raw operating mode
    once and changes nothing; each of the five raw modes its switch names gives one logical
    state, fixed by the raw mode alone: sleep, standby and transmitter give
    their namesakes, and both receive variants, continuous and single, give
    the idle state. *)
Theorem get_state_maps_named_modes :
  forall m : machine,
    let op_mode := u8 (port_read (hw m) SX127X_REG_OPMODE) in
    let o := _get_state m in
    fst (value o) = Ok sizeof_netopt_state_t
    /\ after o = m
    /\ calls o = [RegRead SX127X_REG_OPMODE]
    /\ (op_mode = SX127X_RF_OPMODE_SLEEP ->
        snd (value o) = Some NETOPT_STATE_SLEEP)
    /\ (op_mode = SX127X_RF_OPMODE_STANDBY ->
        snd (value o) = Some NETOPT_STATE_STANDBY)
    /\ (op_mode = SX127X_RF_OPMODE_TRANSMITTER ->
        snd (value o) = Some NETOPT_STATE_TX)
    /\ (op_mode = SX127X_RF_OPMODE_RECEIVER ->
        snd (value o) = Some NETOPT_STATE_IDLE)
    /\ (op_mode = SX127X_RF_LORA_OPMODE_RECEIVER_SINGLE ->
        snd (value o) = Some NETOPT_STATE_IDLE)
    /\ (forall m' : machine,
          u8 (port_read (hw m') SX127X_REG_OPMODE) = op_mode ->
          snd (value (_get_state m')) = snd (value o)).
Proof.
  intros m op_mode o. subst o. run. fold op_mode.
  destruct opmode_labels_neq
    as (N1 & N2 & N3 & N4 & N5 & N6 & N7 & N8 & N9).
  split; [reflexivity|]. split; [destruct m; reflexivity|].
  split; [reflexivity|].
  cbn [fst snd].
  repeat split.
  - intros ->. now rewrite Z.eqb_refl.
  - intros ->. rewrite (proj2 (Z.eqb_neq _ _) (not_eq_sym N1)).
    now rewrite Z.eqb_refl.
  - intros ->. rewrite (proj2 (Z.eqb_neq _ _) (not_eq_sym N2)).
    rewrite (proj2 (Z.eqb_neq _ _) (not_eq_sym N5)).
    now rewrite Z.eqb_refl.
  - intros ->. rewrite (proj2 (Z.eqb_neq _ _) (not_eq_sym N3)).
    rewrite (proj2 (Z.eqb_neq _ _) (not_eq_sym N6)).
    rewrite (proj2 (Z.eqb_neq _ _) (not_eq_sym N8)).
    now rewrite Z.eqb_refl.
  - intros ->. rewrite (proj2 (Z.eqb_neq _ _) (not_eq_sym N4)).
    rewrite (proj2 (Z.eqb_neq _ _) (not_eq_sym N7)).
    rewrite (proj2 (Z.eqb_neq _ _) (not_eq_sym N9)).
    rewrite Z.eqb_refl. now rewrite orb_true_r.
  - intros m' ->. reflexivity.
Qed.

(** Outside the five named modes the switch takes its [default] branch and
    the state copied out is the uninitialised local. *)
Lemma get_state_unnamed_mode :
  forall m : machine,
    ~ In (u8 (port_read (hw m) SX127X_REG_OPMODE))
         [SX127X_RF_OPMODE_SLEEP; SX127X_RF_OPMODE_STANDBY;
          SX127X_RF_OPMODE_TRANSMITTER; SX127X_RF_OPMODE_RECEIVER;
          SX127X_RF_LORA_OPMODE_RECEIVER_SINGLE] ->
    snd (value (_get_state m)) = None.
Proof.
  intros m Hout. run. cbn [snd]. cbn [In] in Hout.
  repeat match goal with
         | |- context [?a =? ?b] =>
             destruct (Z.eqb_spec a b) as [E|_]; [exfalso; apply Hout; rewrite E; tauto|]
         end.
  reflexivity.
Qed.

(** *** Further properties of send *)

(** The whole run of an accepted LoRa send. *)
Lemma send_lora_run :
  forall (m : machine) (vector : list iovec),
    state (settings (dev m)) <> SX127X_RF_TX_RUNNING ->
    modem (settings (dev m)) = SX127X_MODEM_LORA ->
    value (_send vector m) = Ok 0
    /\ dev (after (_send vector m)) = dev_transmitting (dev m)
    /\ exists dio : Z,
         calls (_send vector m)
         = [RegWrite SX127X_REG_LR_PAYLOADLENGTH (u8 (_get_tx_len vector));
            RegWrite SX127X_REG_LR_FIFOTXBASEADDR 0;
            RegWrite SX127X_REG_LR_FIFOADDRPTR 0;
            RegRead SX127X_REG_OPMODE]
           ++ (if chip_asleep (chip_addressed (hw m) (_get_tx_len vector))
               then [RegWrite SX127X_REG_OPMODE (u8 SX127X_RF_OPMODE_STANDBY);
                     XtimerUsleep SX127X_RADIO_WAKEUP_TIME]
               else [])
           ++ payload_calls vector
           ++ tx_start_calls (tx_timeout (lora (settings (dev m)))) dio.
Proof.
  intros m vector Hidle Hlora.
  pose proof (lora_is_not_fsk _ Hlora) as Hfsk.
  apply Z.eqb_neq in Hidle. apply Z.eqb_eq in Hlora.
  unfold chip_asleep, chip_addressed.
  run. rewrite Hidle, Hfsk, Hlora. change (u8 0) with 0.
  match goal with |- context [if ?c then _ else _] => destruct c end;
    cbn [value after calls dev hw app]; rewrite write_payload_run;
    cbn [value after calls dev hw app];
    (split; [reflexivity|]); (split; [reflexivity|]);
    eexists; unfold tx_start_calls; reflexivity.
Qed.

(** The whole run of an accepted send on another modem. *)
Lemma send_other_run :
  forall (m : machine) (vector : list iovec),
    state (settings (dev m)) <> SX127X_RF_TX_RUNNING ->
    modem (settings (dev m)) <> SX127X_MODEM_LORA ->
    value (_send vector m) = Ok 0
    /\ dev (after (_send vector m)) = dev_transmitting (dev m)
    /\ exists dio : Z,
         calls (_send vector m)
         = (if modem (settings (dev m)) =? SX127X_MODEM_FSK then []
            else [Puts "sx127x_netdev, Unsupported modem"])
           ++ tx_start_calls (tx_timeout (lora (settings (dev m)))) dio.
Proof.
  intros m vector Hidle Hmodem.
  apply Z.eqb_neq in Hidle. apply Z.eqb_neq in Hmodem.
  run. rewrite Hidle, Hmodem.
  destruct (modem (settings (dev m)) =? SX127X_MODEM_FSK);
    cbn [value after calls dev hw app];
    (split; [reflexivity|]); (split; [reflexivity|]);
    eexists; unfold tx_start_calls; reflexivity.
Qed.

(** X1: the length [_get_tx_len] gives is the total number of bytes of the
    vector modulo 256: the 8-bit accumulator wraps, so a vector of 256 bytes
    has length 0; the result is always a byte. *)
Theorem get_tx_len_wraps :
  forall vector : list iovec,
    _get_tx_len vector = Z.of_nat (List.length (vector_bytes vector)) mod 256
    /\ 0 <= _get_tx_len vector < 256.
Proof.
  intros vector. rewrite get_tx_len_total.
  split; [reflexivity | apply u8_range].
Qed.

Lemma fifo_bytes_written_app :
  forall l1 l2 : list call,
    fifo_bytes_written (l1 ++ l2)
    = fifo_bytes_written l1 ++ fifo_bytes_written l2.
Proof. intros l1 l2. unfold fifo_bytes_written. apply flat_map_app. Qed.

Lemma fifo_bytes_written_payload :
  forall vector : list iovec,
    fifo_bytes_written (payload_calls vector) = vector_bytes vector.
Proof.
  induction vector as [|v rest IH]; [reflexivity|].
  change (fifo_bytes_written (payload_calls (v :: rest)))
    with (iov_base v ++ fifo_bytes_written (payload_calls rest)).
  now rewrite IH.
Qed.

(** X2: an accepted LoRa send puts into the FIFO exactly the bytes of the
    vector, buffer after buffer with nothing in between, and programs as
    payload length the number of those bytes modulo 256. *)
Theorem send_lora_writes_vector_bytes :
  forall (m : machine) (vector : list iovec),
    state (settings (dev m)) <> SX127X_RF_TX_RUNNING ->
    modem (settings (dev m)) = SX127X_MODEM_LORA ->
    fifo_bytes_written (calls (_send vector m)) = vector_bytes vector
    /\ hd_error (calls (_send vector m))
       = Some (RegWrite SX127X_REG_LR_PAYLOADLENGTH
                 (Z.of_nat (List.length (vector_bytes vector)) mod 256)).
Proof.
  intros m vector Hidle Hlora.
  destruct (send_lora_run m vector Hidle Hlora) as (_ & _ & dio & ->).
  split.
  - rewrite !fifo_bytes_written_app, fifo_bytes_written_payload.
    destruct (chip_asleep _); cbn; now rewrite app_nil_r.
  - cbn [app hd_error].
    rewrite get_tx_len_total, u8_idempotent. reflexivity.
Qed.

(** X3: once a send has been accepted, on whatever modem, a second send is
    refused with [-ENOTSUP] and does nothing: no call, descriptor and chip
    as the first send left them. *)
Theorem send_after_send_rejected :
  forall (m : machine) (first second : list iovec),
    state (settings (dev m)) <> SX127X_RF_TX_RUNNING ->
    _send second (after (_send first m))
    = Outcome (Err ENOTSUP) (after (_send first m)) [].
Proof.
  intros m first second Hidle.
  assert (Hdev : dev (after (_send first m)) = dev_transmitting (dev m)).
  { destruct (Z.eq_dec (modem (settings (dev m))) SX127X_MODEM_LORA) as [E|E].
    - exact (proj1 (proj2 (send_lora_run m first Hidle E))).
    - exact (proj1 (proj2 (send_other_run m first Hidle E))). }
  set (m1 := after (_send first m)) in *.
  unfold _send at 1. unfold sx127x_get_state, gets, bind, ret.
  rewrite Hdev. cbn [dev_transmitting with_settings with_state settings state].
  rewrite Z.eqb_refl. reflexivity.
Qed.

(** X4: an accepted LoRa send wakes the chip exactly when it finds it
    asleep: the wake-up delay and the standby command are among its calls
    if the operating mode read after programming the FIFO addresses is the
    sleep mode, and neither is if it is not. *)
Theorem send_lora_wakes_sleeping_chip :
  forall (m : machine) (vector : list iovec),
    state (settings (dev m)) <> SX127X_RF_TX_RUNNING ->
    modem (settings (dev m)) = SX127X_MODEM_LORA ->
    (In (XtimerUsleep SX127X_RADIO_WAKEUP_TIME) (calls (_send vector m))
     <-> chip_asleep (chip_addressed (hw m) (_get_tx_len vector)) = true)
    /\ (chip_asleep (chip_addressed (hw m) (_get_tx_len vector)) = true ->
        In (RegWrite SX127X_REG_OPMODE (u8 SX127X_RF_OPMODE_STANDBY))
           (calls (_send vector m)))
    /\ (chip_asleep (chip_addressed (hw m) (_get_tx_len vector)) = false ->
        filter (fun c => match c with
                         | RegWrite SX127X_REG_OPMODE _ => true
                         | _ => false
                         end) (calls (_send vector m))
        = [RegWrite SX127X_REG_OPMODE (u8 SX127X_RF_OPMODE_TRANSMITTER)]).
Proof.
  intros m vector Hidle Hlora.
  destruct (send_lora_run m vector Hidle Hlora) as (_ & _ & dio & ->).
  assert (Hpay : forall c, In c (payload_calls vector) -> is_fifo_write c = true).
  { intros c Hc. unfold payload_calls in Hc. apply in_map_iff in Hc.
    destruct Hc as (v & <- & _). reflexivity. }
  assert (Hfilter : filter (fun c => match c with
                                     | RegWrite SX127X_REG_OPMODE _ => true
                                     | _ => false
                                     end) (payload_calls vector) = []).
  { induction vector as [|v rest IH]; [reflexivity | exact (IH (fun c H => Hpay c (or_intror H)))]. }
  destruct (chip_asleep _).
  - split; [split|split].
    + intros _. reflexivity.
    + intros _. cbn. auto 10.
    + intros _. cbn. auto 10.
    + discriminate.
  - split; [split|split].
    + intros Hin. cbn [app] in Hin.
      repeat (destruct Hin as [Hin|Hin]; [discriminate|]).
      apply in_app_or in Hin. destruct Hin as [Hin|Hin].
      * apply Hpay in Hin. discriminate.
      * cbn in Hin. intuition discriminate.
    + discriminate.
    + discriminate.
    + intros _. cbn [app filter]. rewrite filter_app, Hfilter. reflexivity.
Qed.




(** *** Further properties of receive *)

(** X6: on a device whose modem is not LoRa a receive returns 0 and does
    nothing at all: no call, machine unchanged, buffer and packet
    information as the caller passed them. *)
Theorem recv_non_lora_is_noop :
  forall (m : machine) (buf : option (list Z)) (len : Z)
         (info : option netdev_sx127x_lora_packet_info_t),
    modem (settings (dev m)) <> SX127X_MODEM_LORA ->
    _recv buf len info m
    = Outcome {| recv_ret := Ok 0; recv_buf := buf; recv_info := info |} m [].
Proof.
  intros m buf len info Hmodem. apply Z.eqb_neq in Hmodem.
  run. rewrite Hmodem.
  destruct (modem (settings (dev m)) =? SX127X_MODEM_FSK); reflexivity.
Qed.

(** X7: a LoRa receive with no CRC error flagged and a buffer at least as
    large as the received length returns that length; after the count is
    read it cancels the rx timeout, points the FIFO address at the chip's
    current receive address and reads that many bytes, in this order; the
    bytes replace the head of the buffer and the rest of it is kept; the
    radio state becomes the idle one unless continuous receive is enabled;
    the tx timeout timer is as before. *)
Theorem recv_lora_delivers_packet :
  forall (m : machine) (b : list Z) (len : Z)
         (info : option netdev_sx127x_lora_packet_info_t),
    modem (settings (dev m)) = SX127X_MODEM_LORA ->
    crc_error_flagged m = false ->
    rx_nb_bytes m <= len ->
    let o := _recv (Some b) len info m in
    let size := rx_nb_bytes m in
    let addr := u8 (port_read (rx_acknowledged m)
                              SX127X_REG_LR_FIFORXCURRENTADDR) in
    let pointed :=
      port_write (rx_acknowledged m) SX127X_REG_LR_FIFOADDRPTR addr in
    recv_ret (value o) = Ok size
    /\ recv_buf (value o)
       = Some (firstn (Z.to_nat size) (fst (port_read_burst pointed size))
               ++ skipn (Z.to_nat size) b)
    /\ hw (after o) = snd (port_read_burst pointed size)
    /\ calls o = [RegWrite SX127X_REG_LR_IRQFLAGS
                           (u8 SX127X_RF_LORA_IRQFLAGS_RXDONE);
                  RegRead SX127X_REG_LR_IRQFLAGS]
                 ++ info_reads info
                 ++ [RegRead SX127X_REG_LR_RXNBBYTES;
                     XtimerRemove RxTimeout;
                     RegRead SX127X_REG_LR_FIFORXCURRENTADDR;
                     RegWrite SX127X_REG_LR_FIFOADDRPTR addr;
                     ReadFifo size]
    /\ rx_timeout_timer (_internal (dev (after o))) = None
    /\ tx_timeout_timer (_internal (dev (after o)))
       = tx_timeout_timer (_internal (dev m))
    /\ state (settings (dev (after o)))
       = (if rx_single_shot (dev m) then SX127X_RF_IDLE
          else state (settings (dev m))).
Proof.
  intros m b len info Hlora Hcrc Hfits o size addr pointed.
  subst o size addr pointed.
  assert (Hgt : (rx_nb_bytes m >? len) = false)
    by (rewrite Z.gtb_ltb; apply Z.ltb_ge; exact Hfits).
  unfold rx_nb_bytes, rx_acknowledged in *.
  run_recv Hlora Hcrc.
  destruct info as [i|]; cbn [value after calls dev hw app];
    rewrite Hgt; cbn [value after calls dev hw app];
    destruct (rx_single_shot (dev m));
    cbn [value after calls dev hw app recv_ret recv_buf];
    rewrite !u8_idempotent; repeat split; reflexivity.
Qed.

(** Takes a receive apart, path by path. *)
Ltac recv_paths :=
  run;
  repeat (cbn [value after calls dev hw app];
          match goal with
          | |- context [if ?c then _ else _] => destruct c eqn:?
          end);
  cbn [value after calls dev hw app].

(** X8: a receive into a buffer never reports, and never reads from the
    FIFO, more bytes than the capacity [len]: a count it returns lies
    between 0 and [len], and so does the size of every FIFO read it makes. *)
Theorem recv_never_exceeds_capacity :
  forall (m : machine) (b : list Z) (len : Z)
         (info : option netdev_sx127x_lora_packet_info_t),
    0 <= len ->
    (forall n : Z,
        recv_ret (value (_recv (Some b) len info m)) = Ok n -> 0 <= n <= len)
    /\ Forall (fun size => 0 <= size <= len)
              (fifo_read_sizes (calls (_recv (Some b) len info m))).
Proof.
  intros m b len info Hlen.
  destruct info as [i|]; recv_paths; cbn;
    (split; [intros n Hn; inversion Hn; subst n; clear Hn | ]);
    repeat constructor;
    try lia; try apply u8_range;
    match goal with
    | H : (_ >? len) = false |- _ =>
        rewrite Z.gtb_ltb in H; apply Z.ltb_ge in H; exact H
    end.
Qed.

(** X9: whatever the device and the arguments, a receive changes nothing
    of the descriptor but the radio state and the rx timeout timer, writes
    no chip register other than the interrupt flags and the FIFO address
    pointer, and never writes the FIFO, arms a timer, sleeps or prints. *)
Theorem recv_frame :
  forall (m : machine) (buf : option (list Z)) (len : Z)
         (info : option netdev_sx127x_lora_packet_info_t),
    same_configuration (dev m) (dev (after (_recv buf len info m)))
    /\ tx_timeout_timer (_internal (dev (after (_recv buf len info m))))
       = tx_timeout_timer (_internal (dev m))
    /\ forallb (fun c => negb (foreign_to_recv c))
               (calls (_recv buf len info m)) = true.
Proof.
  intros m buf len info.
  destruct info as [i|], buf as [b|]; recv_paths;
    repeat split; reflexivity.
Qed.

(** X10: when packet information is asked of a LoRa receive with no CRC
    error flagged, every field is written anew, whatever the caller's
    structure held and whatever the buffer: the LQI is 0, the SNR lies
    between -32 and 63, and the time on air is the estimate for the
    capacity [len] passed to the call, not for the received length. *)
Theorem recv_packet_info_written_anew :
  forall (m : machine) (buf : option (list Z)) (len : Z),
    modem (settings (dev m)) = SX127X_MODEM_LORA ->
    crc_error_flagged m = false ->
    exists pi : netdev_sx127x_lora_packet_info_t,
      (forall i' : netdev_sx127x_lora_packet_info_t,
          recv_info (value (_recv buf len (Some i') m)) = Some pi)
      /\ lqi pi = 0
      /\ -32 <= snr pi <= 63
      /\ time_on_air pi = time_on_air_estimate (settings (dev m)) len.
Proof.
  intros m buf len Hlora Hcrc.
  exists (packet_info_of (settings (dev m)) (rx_acknowledged m) len).
  split; [|split; [reflexivity|split; [|reflexivity]]].
  - intros i'. exact (recv_lora_packet_info m buf len (Some i') Hlora Hcrc).
  - cbn [packet_info_of snr]. apply snr_of_register_range. apply u8_range.
Qed.

(** X11: a receive called without packet information hands none back and
    never reads the packet-SNR or packet-RSSI register, on any path. *)
Theorem recv_without_info_reads_no_link_quality :
  forall (m : machine) (buf : option (list Z)) (len : Z),
    recv_info (value (_recv buf len None m)) = None
    /\ forallb (fun c => match c with
                         | RegRead SX127X_REG_LR_PKTSNRVALUE
                         | RegRead SX127X_REG_LR_PKTRSSIVALUE => false
                         | _ => true
                         end) (calls (_recv buf len None m)) = true.
Proof.
  intros m buf len.
  destruct buf as [b|]; recv_paths; split; reflexivity.
Qed.

(** X12: the SNR derived from a register byte is negative exactly when
    the top bit of the byte is set, and it is never below -32 nor above 63. *)
Theorem snr_sign_and_range :
  forall v : Z,
    0 <= v < 256 ->
    (snr_of_register v < 0 <-> 128 <= v)
    /\ -32 <= snr_of_register v <= 63.
Proof.
  intros v Hv. split; [|now apply snr_of_register_range].
  rewrite snr_of_register_signed_quarter by assumption. unfold i8.
  destruct (Z_lt_le_dec v 128) as [Hlow|Hhigh].
  - rewrite Z.mod_small by lia. split; [|lia].
    intros Hneg. exfalso.
    assert (0 <= (v + 128 - 128) / 4) by (apply Z.div_pos; lia). lia.
  - replace ((v + 128) mod 256) with (v - 128).
    + split; [lia|]. intros _.
      apply Z.div_lt_upper_bound; lia.
    + replace (v + 128) with (v - 128 + 1 * 256) by lia.
      rewrite Z.mod_add by lia. rewrite Z.mod_small; lia.
Qed.

(** X13: in the SX1272 build the RSSI a LoRa receive reports does not
    depend on the channel the device is tuned to. *)
Theorem recv_rssi_sx1272_ignores_channel :
  forall (m : machine) (buf : option (list Z)) (len chan : Z)
         (info : option netdev_sx127x_lora_packet_info_t),
    MODULE_SX1272 = true ->
    modem (settings (dev m)) = SX127X_MODEM_LORA ->
    crc_error_flagged m = false ->
    option_map rssi (recv_info (value (_recv buf len info (retuned chan m))))
    = option_map rssi (recv_info (value (_recv buf len info m))).
Proof.
  intros m buf len chan info Hbuild Hlora Hcrc.
  rewrite (recv_lora_packet_info m buf len info Hlora Hcrc).
  rewrite (recv_lora_packet_info (retuned chan m) buf len info Hlora Hcrc).
  destruct info as [i|]; [|reflexivity].
  cbn [option_map packet_info_of rssi]. unfold rssi_of_register.
  rewrite Hbuild. reflexivity.
Qed.

(** X14: for a raw operating mode that is none of the five the switch
    names, [_get_state] still returns the size of a state as on success and
    changes nothing, but the state it copies out is the uninitialised
    local. *)
Theorem get_state_unnamed_mode_uninitialised :
  forall m : machine,
    ~ In (u8 (port_read (hw m) SX127X_REG_OPMODE))
         [SX127X_RF_OPMODE_SLEEP; SX127X_RF_OPMODE_STANDBY;
          SX127X_RF_OPMODE_TRANSMITTER; SX127X_RF_OPMODE_RECEIVER;
          SX127X_RF_LORA_OPMODE_RECEIVER_SINGLE] ->
    _get_state m
    = Outcome (Ok sizeof_netopt_state_t, None) m [RegRead SX127X_REG_OPMODE].
Proof.
  intros m Hout.
  pose proof (get_state_unnamed_mode m Hout) as Hnone.
  revert Hnone. run. cbn [snd]. intros ->. destruct m; reflexivity.
Qed.

(** *** Interrupt dispatch and state commands *)

Context {internals : Sx127xInternals (chip := chip)}.

Lemma irq_labels_neq :
  SX127X_IRQ_DIO0 <> SX127X_IRQ_DIO1
  /\ SX127X_IRQ_DIO0 <> SX127X_IRQ_DIO2
  /\ SX127X_IRQ_DIO0 <> SX127X_IRQ_DIO3
  /\ SX127X_IRQ_DIO1 <> SX127X_IRQ_DIO2
  /\ SX127X_IRQ_DIO1 <> SX127X_IRQ_DIO3
  /\ SX127X_IRQ_DIO2 <> SX127X_IRQ_DIO3.
Proof.
  pose proof irq_labels_distinct as N.
  inversion N as [|a la Ha Na]; subst.
  inversion Na as [|b lb Hb Nb]; subst.
  inversion Nb as [|c lc Hc Nc]; subst.
  cbn [In] in Ha, Hb, Hc.
  repeat split; intro E;
    first [ apply Ha; rewrite E; solve [auto 6]
          | apply Hb; rewrite E; solve [auto 6]
          | apply Hc; rewrite E; solve [auto 6] ].
Qed.

(** X15: when the pending interrupt is none of the four lines, [_isr]
    only clears the pending slot: no handler runs, no call is made, and the
    rest of the machine is unchanged. *)
Theorem isr_unknown_line_only_clears :
  forall m : machine,
    ~ In (u8 (irq (dev m)))
         [SX127X_IRQ_DIO0; SX127X_IRQ_DIO1; SX127X_IRQ_DIO2; SX127X_IRQ_DIO3] ->
    _isr m = Outcome tt (Machine (with_irq 0 (dev m)) (hw m)) [].
Proof.
  intros m Hout. unfold _isr, gets, modify, bind, ret.
  cbn [value after calls dev hw app]. cbn [In] in Hout.
  repeat match goal with
         | |- context [?a =? ?b] =>
             destruct (Z.eqb_spec a b) as [E|_];
             [exfalso; apply Hout; rewrite E; tauto|]
         end.
  reflexivity.
Qed.

(** X16: when the pending interrupt is one of the four lines, [_isr] runs
    the handler of that line and no other, and the handler starts from the
    machine with the pending slot already cleared. *)
Theorem isr_dispatches_after_clearing :
  forall m : machine,
    (u8 (irq (dev m)) = SX127X_IRQ_DIO0 ->
     _isr m = sx127x_on_dio0 (Machine (with_irq 0 (dev m)) (hw m)))
    /\ (u8 (irq (dev m)) = SX127X_IRQ_DIO1 ->
        _isr m = sx127x_on_dio1 (Machine (with_irq 0 (dev m)) (hw m)))
    /\ (u8 (irq (dev m)) = SX127X_IRQ_DIO2 ->
        _isr m = sx127x_on_dio2 (Machine (with_irq 0 (dev m)) (hw m)))
    /\ (u8 (irq (dev m)) = SX127X_IRQ_DIO3 ->
        _isr m = sx127x_on_dio3 (Machine (with_irq 0 (dev m)) (hw m))).
Proof.
  intros m.
  destruct irq_labels_neq as (N01 & N02 & N03 & N12 & N13 & N23).
  unfold _isr, gets, modify, bind, ret.
  cbn [value after calls dev hw app].
  repeat split; intros ->.
  - rewrite Z.eqb_refl. destruct (sx127x_on_dio0 _). reflexivity.
  - rewrite (proj2 (Z.eqb_neq _ _) (not_eq_sym N01)), Z.eqb_refl.
    destruct (sx127x_on_dio1 _). reflexivity.
  - rewrite (proj2 (Z.eqb_neq _ _) (not_eq_sym N02)).
    rewrite (proj2 (Z.eqb_neq _ _) (not_eq_sym N12)), Z.eqb_refl.
    destruct (sx127x_on_dio2 _). reflexivity.
  - rewrite (proj2 (Z.eqb_neq _ _) (not_eq_sym N03)).
    rewrite (proj2 (Z.eqb_neq _ _) (not_eq_sym N13)).
    rewrite (proj2 (Z.eqb_neq _ _) (not_eq_sym N23)), Z.eqb_refl.
    destruct (sx127x_on_dio3 _). reflexivity.
Qed.

(** X17: commanding the idle state is commanding the receive state on a
    device whose window timeout has first been set to 0: same calls, same
    result, same machine afterwards, whatever the receive setter does. *)
Theorem set_state_idle_is_rx_without_window :
  forall m : machine,
    _set_state (Reported NETOPT_STATE_IDLE) m
    = _set_state NETOPT_STATE_RX
        (Machine (with_settings (with_window_timeout 0) (dev m)) (hw m)).
Proof.
  intros m. unfold _set_state, modify, bind, ret.
  cbn [value after calls dev hw app].
  destruct (sx127x_set_rx _). reflexivity.
Qed.

(** X18: [_set_state] fails exactly for a state its switch does not name:
    that state is refused with [-ENOTSUP] and nothing happens; every named
    state returns the size of a state, whatever the setter it calls does. *)
Theorem set_state_result :
  forall (m : machine) (st : netopt_state_arg),
    (st = NETOPT_STATE_UNNAMED ->
     _set_state st m = Outcome (Err ENOTSUP) m [])
    /\ (st <> NETOPT_STATE_UNNAMED ->
        value (_set_state st m) = Ok sizeof_netopt_state_t).
Proof.
  intros m st. split.
  - intros ->. reflexivity.
  - intros Hnamed. destruct st as [[| | |]| | |]; try congruence;
      unfold _set_state, sx127x_set_standby, sx127x_set_op_mode,
        sx127x_reg_write, modify, bind, ret;
      cbn [value after calls dev hw app];
      try match goal with
          | |- context [sx127x_set_sleep ?x] => destruct (sx127x_set_sleep x)
          | |- context [sx127x_set_rx ?x] => destruct (sx127x_set_rx x)
          | |- context [sx127x_set_tx ?x] => destruct (sx127x_set_tx x)
          | |- context [sx127x_reset ?x] => destruct (sx127x_reset x)
          end;
      reflexivity.
Qed.

End Properties.

(** ** Runs on the simulated radio *)

Section Sx1276Runs.

#[local] Existing Instance sx1276_headers.

Lemma send_while_transmitting_rejected_witness :
  state (settings (dev sim_transmitting)) = SX127X_RF_TX_RUNNING
  /\ _send sim_vector sim_transmitting
     = Outcome (Err ENOTSUP) sim_transmitting [].
Proof.
  split; [reflexivity|].
  apply (send_while_transmitting_rejected sim_transmitting sim_vector).
  reflexivity.
Defined.

(** C1 as stated fails: the transmitting device is refused with
    [-ENOTSUP], the errno of an unsupported operation, and not with
    [-EBUSY]. *)
Lemma send_while_transmitting_not_ebusy :
  state (settings (dev sim_transmitting)) = SX127X_RF_TX_RUNNING
  /\ value (_send sim_vector sim_transmitting) = Err ENOTSUP
  /\ value (_send sim_vector sim_transmitting) <> Err EBUSY.
Proof.
  split; [reflexivity|]. split; [reflexivity|].
  vm_compute. discriminate.
Qed.

Lemma send_lora_frame_before_irq_mask_witness :
  state (settings (dev sim_lora_asleep)) <> SX127X_RF_TX_RUNNING
  /\ modem (settings (dev sim_lora_asleep)) = SX127X_MODEM_LORA
  /\ value (_send sim_vector sim_lora_asleep) = Ok 0
  /\ calls (_send sim_vector sim_lora_asleep)
     = [RegWrite SX127X_REG_LR_PAYLOADLENGTH 3;
        RegWrite SX127X_REG_LR_FIFOTXBASEADDR 0;
        RegWrite SX127X_REG_LR_FIFOADDRPTR 0;
        RegRead SX127X_REG_OPMODE;
        RegWrite SX127X_REG_OPMODE 1;
        XtimerUsleep 1000;
        WriteFifo [0xCA; 0xFE];
        WriteFifo [0x2A]]
       ++ (RegWrite SX127X_REG_LR_IRQFLAGSMASK 0xF7
           :: [RegRead SX127X_REG_DIOMAPPING1;
               RegWrite SX127X_REG_DIOMAPPING1 0x40;
               XtimerSet TxTimeout 30000;
               RegWrite SX127X_REG_OPMODE 3]).
Proof.
  assert (H1 : state (settings (dev sim_lora_asleep)) <> SX127X_RF_TX_RUNNING)
    by (vm_compute; discriminate).
  assert (H2 : modem (settings (dev sim_lora_asleep)) = SX127X_MODEM_LORA)
    by reflexivity.
  split; [exact H1|]. split; [exact H2|].
  destruct (send_lora_frame_before_irq_mask sim_lora_asleep sim_vector H1 H2)
    as (Hret & Hcalls & _).
  split; [exact Hret|]. rewrite Hcalls. vm_compute. reflexivity.
Defined.

Lemma send_non_lora_starts_tx_without_payload_witness :
  state (settings (dev sim_fsk_received)) <> SX127X_RF_TX_RUNNING
  /\ modem (settings (dev sim_fsk_received)) <> SX127X_MODEM_LORA
  /\ value (_send sim_vector sim_fsk_received) = Ok 0
  /\ calls (_send sim_vector sim_fsk_received)
     = [RegWrite SX127X_REG_LR_IRQFLAGSMASK 0xF7;
        RegRead SX127X_REG_DIOMAPPING1;
        RegWrite SX127X_REG_DIOMAPPING1 0x40;
        XtimerSet TxTimeout 30000;
        RegWrite SX127X_REG_OPMODE 3].
Proof.
  assert (H1 : state (settings (dev sim_fsk_received)) <> SX127X_RF_TX_RUNNING)
    by (vm_compute; discriminate).
  assert (H2 : modem (settings (dev sim_fsk_received)) <> SX127X_MODEM_LORA)
    by (vm_compute; discriminate).
  split; [exact H1|]. split; [exact H2|].
  destruct (send_non_lora_starts_tx_without_payload
              sim_fsk_received sim_vector H1 H2) as (Hret & Hcalls & _).
  split; [exact Hret|]. rewrite Hcalls. vm_compute. reflexivity.
Defined.

Lemma recv_probe_returns_count_witness :
  modem (settings (dev sim_lora_received)) = SX127X_MODEM_LORA
  /\ crc_error_flagged sim_lora_received = false
  /\ recv_ret (value (_recv None 0 (Some sim_info) sim_lora_received))
     = Ok (rx_nb_bytes sim_lora_received).
Proof.
  assert (H1 : modem (settings (dev sim_lora_received)) = SX127X_MODEM_LORA)
    by reflexivity.
  assert (H2 : crc_error_flagged sim_lora_received = false)
    by (vm_compute; reflexivity).
  split; [exact H1|]. split; [exact H2|].
  exact (proj1 (recv_probe_returns_count sim_lora_received 0 (Some sim_info)
                  H1 H2)).
Defined.

(** C4 as stated fails: on an FSK device whose chip reports five received
    bytes and no CRC error, the probe returns 0 and reads nothing. *)
Lemma recv_probe_fsk_returns_zero :
  crc_error_flagged sim_fsk_received = false
  /\ rx_nb_bytes sim_fsk_received = 5
  /\ _recv None 0 None sim_fsk_received
     = Outcome {| recv_ret := Ok 0; recv_buf := None; recv_info := None |}
               sim_fsk_received []
  /\ recv_ret (value (_recv None 0 None sim_fsk_received))
     <> Ok (rx_nb_bytes sim_fsk_received).
Proof.
  split; [vm_compute; reflexivity|]. split; [vm_compute; reflexivity|].
  split; [reflexivity|]. vm_compute. discriminate.
Qed.

Lemma recv_buffer_too_small_witness :
  modem (settings (dev sim_lora_received)) = SX127X_MODEM_LORA
  /\ crc_error_flagged sim_lora_received = false
  /\ rx_nb_bytes sim_lora_received > 2
  /\ recv_ret (value (_recv (Some [0; 0]) 2 None sim_lora_received))
     = Err ENOBUFS.
Proof.
  assert (H1 : modem (settings (dev sim_lora_received)) = SX127X_MODEM_LORA)
    by reflexivity.
  assert (H2 : crc_error_flagged sim_lora_received = false)
    by (vm_compute; reflexivity).
  assert (H3 : rx_nb_bytes sim_lora_received > 2)
    by (vm_compute; reflexivity).
  split; [exact H1|]. split; [exact H2|]. split; [exact H3|].
  exact (proj1 (recv_buffer_too_small sim_lora_received [0; 0] 2 None
                  H1 H2 H3)).
Defined.

(** C5 as stated fails: with five bytes received, a two-byte buffer and the
    CRC-error flag set, the LoRa receive returns [-EBADMSG], not [-ENOBUFS],
    and the rx timeout that was armed is cancelled. *)
Lemma recv_too_small_with_crc_error :
  modem (settings (dev sim_lora_crc_error)) = SX127X_MODEM_LORA
  /\ rx_nb_bytes sim_lora_crc_error > 2
  /\ recv_ret (value (_recv (Some [0; 0]) 2 None sim_lora_crc_error))
     = Err EBADMSG
  /\ recv_ret (value (_recv (Some [0; 0]) 2 None sim_lora_crc_error))
     <> Err ENOBUFS
  /\ rx_timeout_timer (_internal (dev sim_lora_crc_error)) = Some 10000
  /\ rx_timeout_timer
       (_internal (dev (after (_recv (Some [0; 0]) 2 None sim_lora_crc_error))))
     = None.
Proof.
  split; [reflexivity|]. split; [vm_compute; reflexivity|].
  split; [vm_compute; reflexivity|]. split; [vm_compute; discriminate|].
  split; [reflexivity|]. vm_compute. reflexivity.
Qed.

Lemma recv_crc_error_witness :
  modem (settings (dev sim_lora_crc_error)) = SX127X_MODEM_LORA
  /\ crc_error_flagged sim_lora_crc_error = true
  /\ recv_ret (value (_recv (Some [0; 0]) 2 None sim_lora_crc_error))
     = Err EBADMSG.
Proof.
  assert (H1 : modem (settings (dev sim_lora_crc_error)) = SX127X_MODEM_LORA)
    by reflexivity.
  assert (H2 : crc_error_flagged sim_lora_crc_error = true)
    by (vm_compute; reflexivity).
  split; [exact H1|]. split; [exact H2|].
  exact (proj1 (recv_crc_error sim_lora_crc_error (Some [0; 0]) 2 None H1 H2)).
Defined.

(** C6 as stated fails: on an FSK device whose chip has the CRC-error flag
    set, the receive returns 0, which is no error, and makes no call: the
    flag is not cleared, the rx timeout stays armed, nothing is signalled. *)
Lemma recv_fsk_ignores_crc_error :
  crc_error_flagged sim_fsk_crc_error = true
  /\ _recv (Some [0; 0]) 2 None sim_fsk_crc_error
     = Outcome {| recv_ret := Ok 0; recv_buf := Some [0; 0];
                  recv_info := None |}
               sim_fsk_crc_error []
  /\ rx_timeout_timer
       (_internal (dev (after (_recv (Some [0; 0]) 2 None sim_fsk_crc_error))))
     = Some 10000.
Proof.
  split; [vm_compute; reflexivity|]. split; reflexivity.
Qed.

Lemma recv_rssi_band_and_snr_witness :
  MODULE_SX1272 = false
  /\ modem (settings (dev sim_lora_received)) = SX127X_MODEM_LORA
  /\ crc_error_flagged sim_lora_received = false
  /\ exists pi : netdev_sx127x_lora_packet_info_t,
       recv_info (value (_recv None 0 (Some sim_info) sim_lora_received))
       = Some pi.
Proof.
  assert (H0 : MODULE_SX1272 = false) by reflexivity.
  assert (H1 : modem (settings (dev sim_lora_received)) = SX127X_MODEM_LORA)
    by reflexivity.
  assert (H2 : crc_error_flagged sim_lora_received = false)
    by (vm_compute; reflexivity).
  split; [exact H0|]. split; [exact H1|]. split; [exact H2|].
  destruct (recv_rssi_band_and_snr sim_lora_received None 0 sim_info H0 H1 H2)
    as [pi [Hpi _]].
  exists pi. exact Hpi.
Defined.

(** The run behind the witness: SNR register 0xFC, RSSI register 100,
    868 MHz: SNR -1 and RSSI -157 + 100 + 6 - 1. *)
Example recv_rssi_run :
  recv_info (value (_recv None 0 (Some sim_info) sim_lora_received))
  = Some {| rssi := -52; lqi := 0; snr := -1; time_on_air := 1664 |}.
Proof. vm_compute. reflexivity. Qed.

Lemma snr_sign_handling_witness :
  0 <= 0xFF < 256 /\ snr_of_register 0xFF = -1.
Proof.
  assert (H : 0 <= 0xFF < 256) by lia.
  split; [exact H|].
  destruct snr_sign_handling as (_ & _ & _ & Hall).
  rewrite (proj1 (Hall 0xFF H)). reflexivity.
Defined.

(** C2 as stated fails: the register byte 0x80 gives -32, not 0. *)
Lemma snr_of_0x80_is_not_zero :
  snr_of_register 0x80 = -32 /\ snr_of_register 0x80 <> 0.
Proof. split; [reflexivity | vm_compute; discriminate]. Qed.

Lemma set_validated_option_roundtrip_witness :
  validated_range NETOPT_SPREADING_FACTOR = Some (6, 12)
  /\ 0 <= 7 < 256 /\ 6 <= 7 <= 12
  /\ value (_get NETOPT_SPREADING_FACTOR
              (after (_set NETOPT_SPREADING_FACTOR 7 sim_lora_asleep)))
     = (Ok 1, Some 7).
Proof.
  assert (H1 : validated_range NETOPT_SPREADING_FACTOR = Some (6, 12))
    by reflexivity.
  assert (H2 : 0 <= 7 < 256) by lia.
  assert (H3 : 6 <= 7 <= 12) by lia.
  split; [exact H1|]. split; [exact H2|]. split; [exact H3|].
  exact (proj2 (proj1 (set_validated_option_roundtrip sim_lora_asleep
                         NETOPT_SPREADING_FACTOR 6 12 7 H1 H2) H3)).
Defined.

(** A spreading factor of 13 is refused and nothing moves. *)
Example set_spreading_factor_13_refused :
  _set NETOPT_SPREADING_FACTOR 13 sim_lora_asleep
  = Outcome (Err EINVAL) sim_lora_asleep [].
Proof. reflexivity. Qed.

(** C8 fails on the code: with the chip in a raw operating mode the switch
    does not name (here 7), [_get_state] returns the size of a state as on
    success and changes nothing, while the state it copies out is the local
    that no branch has assigned. *)
Lemma get_state_unnamed_mode_is_indeterminate :
  u8 (port_read (hw sim_unnamed_mode) SX127X_REG_OPMODE) = 7
  /\ ~ In 7 [SX127X_RF_OPMODE_SLEEP; SX127X_RF_OPMODE_STANDBY;
             SX127X_RF_OPMODE_TRANSMITTER; SX127X_RF_OPMODE_RECEIVER;
             SX127X_RF_LORA_OPMODE_RECEIVER_SINGLE]
  /\ value (_get_state sim_unnamed_mode) = (Ok 4, None)
  /\ calls (_get_state sim_unnamed_mode) = [RegRead SX127X_REG_OPMODE].
Proof.
  split; [reflexivity|]. split; [vm_compute; intuition discriminate|].
  split; reflexivity.
Qed.

Lemma get_state_maps_named_modes_witness :
  u8 (port_read (hw sim_lora_received) SX127X_REG_OPMODE)
  = SX127X_RF_OPMODE_RECEIVER
  /\ snd (value (_get_state sim_lora_received)) = Some NETOPT_STATE_IDLE.
Proof.
  assert (H : u8 (port_read (hw sim_lora_received) SX127X_REG_OPMODE)
              = SX127X_RF_OPMODE_RECEIVER) by reflexivity.
  split; [exact H|].
  destruct (get_state_maps_named_modes sim_lora_received)
    as (_ & _ & _ & _ & _ & _ & Hrx & _).
  exact (Hrx H).
Defined.

End Sx1276Runs.

(** C7 as stated fails in the SX1272 build: with a negative SNR, the RSSI
    on a channel above the mid-band threshold is computed from the single
    offset of that build (-139 + 100 + 6 - 1), not from the high-frequency
    one, and a channel below the threshold gives the same RSSI. *)
Lemma recv_rssi_sx1272_single_offset :
  @MODULE_SX1272 sx1272_headers = true
  /\ channel (settings (dev sim_lora_received))
     > @SX127X_RF_MID_BAND_THRESH sx1272_headers
  /\ recv_info (value (_recv (hdr := sx1272_headers) None 0 (Some sim_info)
                             sim_lora_received))
     = Some {| rssi := -34; lqi := 0; snr := -1; time_on_air := 1664 |}
  /\ -34 <> @rssi_field sx1272_headers
               (@SX127X_RSSI_OFFSET_HF sx1272_headers
                + i16 100 + Z.shiftr (i16 100) 4 + -1)
  /\ rssi_of_register (hdr := sx1272_headers) 868000000 (-1) 100
     = rssi_of_register (hdr := sx1272_headers) 433000000 (-1) 100.
Proof.
  split; [reflexivity|]. split; [reflexivity|].
  split; [vm_compute; reflexivity|].
  split; [vm_compute; discriminate | reflexivity].
Qed.

(** ** Further runs on the simulated radio *)

Section Sx1276MoreRuns.

#[local] Existing Instance sx1276_headers.

Lemma send_lora_writes_vector_bytes_witness :
  state (settings (dev sim_lora_asleep)) <> SX127X_RF_TX_RUNNING
  /\ modem (settings (dev sim_lora_asleep)) = SX127X_MODEM_LORA
  /\ fifo_bytes_written (calls (_send sim_vector sim_lora_asleep))
     = vector_bytes sim_vector.
Proof.
  assert (H1 : state (settings (dev sim_lora_asleep)) <> SX127X_RF_TX_RUNNING)
    by (vm_compute; discriminate).
  assert (H2 : modem (settings (dev sim_lora_asleep)) = SX127X_MODEM_LORA)
    by reflexivity.
  split; [exact H1|]. split; [exact H2|].
  exact (proj1 (send_lora_writes_vector_bytes sim_lora_asleep sim_vector H1 H2)).
Defined.

(** The run behind it: three bytes in the FIFO, length 3, after the
    wake-up of the sleeping chip. *)
Example send_lora_run_asleep :
  calls (_send sim_vector sim_lora_asleep)
  = [RegWrite SX127X_REG_LR_PAYLOADLENGTH 3;
     RegWrite SX127X_REG_LR_FIFOTXBASEADDR 0;
     RegWrite SX127X_REG_LR_FIFOADDRPTR 0;
     RegRead SX127X_REG_OPMODE;
     RegWrite SX127X_REG_OPMODE 1;
     XtimerUsleep 1000;
     WriteFifo [0xCA; 0xFE];
     WriteFifo [0x2A];
     RegWrite SX127X_REG_LR_IRQFLAGSMASK 0xF7;
     RegRead SX127X_REG_DIOMAPPING1;
     RegWrite SX127X_REG_DIOMAPPING1 0x40;
     XtimerSet TxTimeout 30000;
     RegWrite SX127X_REG_OPMODE 3].
Proof. vm_compute. reflexivity. Qed.

Lemma send_after_send_rejected_witness :
  state (settings (dev sim_lora_asleep)) <> SX127X_RF_TX_RUNNING
  /\ value (_send sim_vector (after (_send sim_vector sim_lora_asleep)))
     = Err ENOTSUP.
Proof.
  assert (H1 : state (settings (dev sim_lora_asleep)) <> SX127X_RF_TX_RUNNING)
    by (vm_compute; discriminate).
  split; [exact H1|].
  rewrite (send_after_send_rejected sim_lora_asleep sim_vector sim_vector H1).
  reflexivity.
Defined.


Lemma send_lora_wakes_sleeping_chip_witness :
  state (settings (dev sim_lora_asleep)) <> SX127X_RF_TX_RUNNING
  /\ modem (settings (dev sim_lora_asleep)) = SX127X_MODEM_LORA
  /\ chip_asleep (chip_addressed (hw sim_lora_asleep) (_get_tx_len sim_vector))
     = true
  /\ In (XtimerUsleep SX127X_RADIO_WAKEUP_TIME)
        (calls (_send sim_vector sim_lora_asleep)).
Proof.
  assert (H1 : state (settings (dev sim_lora_asleep)) <> SX127X_RF_TX_RUNNING)
    by (vm_compute; discriminate).
  assert (H2 : modem (settings (dev sim_lora_asleep)) = SX127X_MODEM_LORA)
    by reflexivity.
  assert (H3 : chip_asleep (chip_addressed (hw sim_lora_asleep)
                                           (_get_tx_len sim_vector)) = true)
    by (vm_compute; reflexivity).
  split; [exact H1|]. split; [exact H2|]. split; [exact H3|].
  exact (proj2 (proj1 (send_lora_wakes_sleeping_chip
                         sim_lora_asleep sim_vector H1 H2)) H3).
Defined.

Lemma recv_non_lora_is_noop_witness :
  modem (settings (dev sim_fsk_received)) <> SX127X_MODEM_LORA
  /\ _recv (Some sim_buffer) 8 (Some sim_info) sim_fsk_received
     = Outcome {| recv_ret := Ok 0; recv_buf := Some sim_buffer;
                  recv_info := Some sim_info |} sim_fsk_received [].
Proof.
  assert (H1 : modem (settings (dev sim_fsk_received)) <> SX127X_MODEM_LORA)
    by (vm_compute; discriminate).
  split; [exact H1|].
  exact (recv_non_lora_is_noop sim_fsk_received (Some sim_buffer) 8
           (Some sim_info) H1).
Defined.

Lemma recv_lora_delivers_packet_witness :
  modem (settings (dev sim_lora_received)) = SX127X_MODEM_LORA
  /\ crc_error_flagged sim_lora_received = false
  /\ rx_nb_bytes sim_lora_received <= 8
  /\ recv_ret (value (_recv (Some sim_buffer) 8 None sim_lora_received))
     = Ok (rx_nb_bytes sim_lora_received).
Proof.
  assert (H1 : modem (settings (dev sim_lora_received)) = SX127X_MODEM_LORA)
    by reflexivity.
  assert (H2 : crc_error_flagged sim_lora_received = false)
    by (vm_compute; reflexivity).
  assert (H3 : rx_nb_bytes sim_lora_received <= 8)
    by (vm_compute; discriminate).
  split; [exact H1|]. split; [exact H2|]. split; [exact H3|].
  exact (proj1 (recv_lora_delivers_packet sim_lora_received sim_buffer 8 None
                  H1 H2 H3)).
Defined.

(** The run behind it: five bytes over the head of the buffer. *)
Example recv_lora_run_delivery :
  value (_recv (Some sim_buffer) 8 None sim_lora_received)
  = {| recv_ret := Ok 5; recv_buf := Some [1; 2; 3; 4; 5; 9; 9; 9];
       recv_info := None |}.
Proof. vm_compute. reflexivity. Qed.

Lemma recv_never_exceeds_capacity_witness :
  0 <= 8
  /\ Forall (fun size => 0 <= size <= 8)
            (fifo_read_sizes
               (calls (_recv (Some sim_buffer) 8 None sim_lora_received))).
Proof.
  assert (H1 : 0 <= 8) by lia.
  split; [exact H1|].
  exact (proj2 (recv_never_exceeds_capacity sim_lora_received sim_buffer 8
                  None H1)).
Defined.

Lemma recv_packet_info_written_anew_witness :
  modem (settings (dev sim_lora_received)) = SX127X_MODEM_LORA
  /\ crc_error_flagged sim_lora_received = false
  /\ exists pi : netdev_sx127x_lora_packet_info_t,
       recv_info (value (_recv None 0 (Some sim_info) sim_lora_received))
       = Some pi
       /\ lqi pi = 0.
Proof.
  assert (H1 : modem (settings (dev sim_lora_received)) = SX127X_MODEM_LORA)
    by reflexivity.
  assert (H2 : crc_error_flagged sim_lora_received = false)
    by (vm_compute; reflexivity).
  split; [exact H1|]. split; [exact H2|].
  destruct (recv_packet_info_written_anew sim_lora_received None 0 H1 H2)
    as (pi & Hpi & Hlqi & _).
  exists pi. split; [exact (Hpi sim_info) | exact Hlqi].
Defined.

Lemma snr_sign_and_range_witness :
  0 <= 0x80 < 256 /\ snr_of_register 0x80 < 0.
Proof.
  assert (H : 0 <= 0x80 < 256) by lia.
  split; [exact H|].
  apply (proj1 (snr_sign_and_range 0x80 H)). lia.
Defined.

Lemma get_state_unnamed_mode_uninitialised_witness :
  ~ In (u8 (port_read (hw sim_unnamed_mode) SX127X_REG_OPMODE))
       [SX127X_RF_OPMODE_SLEEP; SX127X_RF_OPMODE_STANDBY;
        SX127X_RF_OPMODE_TRANSMITTER; SX127X_RF_OPMODE_RECEIVER;
        SX127X_RF_LORA_OPMODE_RECEIVER_SINGLE]
  /\ value (_get_state sim_unnamed_mode) = (Ok sizeof_netopt_state_t, None).
Proof.
  assert (H : ~ In (u8 (port_read (hw sim_unnamed_mode) SX127X_REG_OPMODE))
                   [SX127X_RF_OPMODE_SLEEP; SX127X_RF_OPMODE_STANDBY;
                    SX127X_RF_OPMODE_TRANSMITTER; SX127X_RF_OPMODE_RECEIVER;
                    SX127X_RF_LORA_OPMODE_RECEIVER_SINGLE])
    by (vm_compute; intuition discriminate).
  split; [exact H|].
  rewrite (get_state_unnamed_mode_uninitialised sim_unnamed_mode H).
  reflexivity.
Defined.

Lemma isr_unknown_line_only_clears_witness :
  ~ In (u8 (irq (dev (sim_pending 16))))
       [SX127X_IRQ_DIO0; SX127X_IRQ_DIO1; SX127X_IRQ_DIO2; SX127X_IRQ_DIO3]
  /\ irq (dev (after (_isr (sim_pending 16)))) = 0
  /\ calls (_isr (sim_pending 16)) = [].
Proof.
  assert (H : ~ In (u8 (irq (dev (sim_pending 16))))
                   [SX127X_IRQ_DIO0; SX127X_IRQ_DIO1; SX127X_IRQ_DIO2;
                    SX127X_IRQ_DIO3])
    by (vm_compute; intuition discriminate).
  split; [exact H|].
  rewrite (isr_unknown_line_only_clears (sim_pending 16) H).
  split; reflexivity.
Defined.

Lemma isr_dispatches_after_clearing_witness :
  u8 (irq (dev (sim_pending 2))) = SX127X_IRQ_DIO1
  /\ _isr (sim_pending 2)
     = sx127x_on_dio1 (Machine (with_irq 0 (dev (sim_pending 2)))
                               (hw (sim_pending 2))).
Proof.
  assert (H : u8 (irq (dev (sim_pending 2))) = SX127X_IRQ_DIO1) by reflexivity.
  split; [exact H|].
  exact (proj1 (proj2 (isr_dispatches_after_clearing (sim_pending 2))) H).
Defined.

Lemma set_state_result_witness :
  Reported NETOPT_STATE_TX <> NETOPT_STATE_UNNAMED
  /\ value (_set_state (Reported NETOPT_STATE_TX) sim_lora_asleep)
     = Ok sizeof_netopt_state_t.
Proof.
  assert (H : Reported NETOPT_STATE_TX <> NETOPT_STATE_UNNAMED)
    by discriminate.
  split; [exact H|].
  exact (proj2 (set_state_result sim_lora_asleep (Reported NETOPT_STATE_TX)) H).
Defined.

End Sx1276MoreRuns.

Lemma recv_rssi_sx1272_ignores_channel_witness :
  @MODULE_SX1272 sx1272_headers = true
  /\ modem (settings (dev sim_lora_received)) = @SX127X_MODEM_LORA sx1272_headers
  /\ crc_error_flagged (hdr := sx1272_headers) sim_lora_received = false
  /\ option_map rssi
       (recv_info (value (_recv (hdr := sx1272_headers) None 0 (Some sim_info)
                                (retuned 433000000 sim_lora_received))))
     = option_map rssi
         (recv_info (value (_recv (hdr := sx1272_headers) None 0 (Some sim_info)
                                  sim_lora_received))).
Proof.
  assert (H0 : @MODULE_SX1272 sx1272_headers = true) by reflexivity.
  assert (H1 : modem (settings (dev sim_lora_received))
               = @SX127X_MODEM_LORA sx1272_headers) by reflexivity.
  assert (H2 : crc_error_flagged (hdr := sx1272_headers) sim_lora_received
               = false) by (vm_compute; reflexivity).
  split; [exact H0|]. split; [exact H1|]. split; [exact H2|].
  exact (recv_rssi_sx1272_ignores_channel (hdr := sx1272_headers)
           sim_lora_received None 0 433000000 (Some sim_info) H0 H1 H2).
Defined.
